(** * ExpenseTracker: a shallow embedding of [src/main.py]

    The module keeps one SQLite table [expenses] and exposes three tools
    ([add_expense], [list_expenses], [summarize]), one resource
    ([categories]) and the start-up routine [init_db].

    Modelling conventions.
    - A Python [str] is a Rocq [string] holding its UTF-8 encoding; SQLite
      compares TEXT values with the BINARY collation, that is bytewise, which
      is [String.compare] on that representation.
    - The REAL column [amount] holds doubles; the model carries an amount
      as the rational [Q] it denotes (NaN, which SQLite stores as NULL and
      the NOT NULL constraint rejects, is no value of the model).  [SUM]
      adds doubles and rounds; the model adds exactly, so the statements
      below say nothing of the value of a total, only of which rows a group
      gathers, of its count and of the order of the totals.
    - SQL statements are modelled by their effect on the table, a list of
      rows in rowid order, together with the AUTOINCREMENT counter SQLite
      keeps in [sqlite_sequence].
    - A [try]/[except] block is a match on the [result] of its body.  What
      the storage driver does besides the statement itself (a locked or
      read-only file, a cancelled task) is the [fault] argument of each
      operation: the exception raised while the body runs, if any. *)

From Stdlib Require Import Bool List String Ascii ZArith QArith Lia.
From Stdlib Require Import Orders Mergesort Sorted Permutation.
From Stdlib Require Import RelationClasses Morphisms Setoid.
Import ListNotations.
Local Open Scope string_scope.
Local Open Scope Z_scope.

(** ** Python values, exceptions and string operations *)

Module Py.

(** The exception classes the handlers tell apart.  [BaseExceptionOnly]
    stands for the classes that derive from [BaseException] but not from
    [Exception] ([asyncio.CancelledError], [KeyboardInterrupt],
    [SystemExit]). *)
Inductive exception : Type :=
| OperationalError (msg : string)
| OtherException (msg : string)
| BaseExceptionOnly (msg : string).

(** [str(e)] *)
Definition str (e : exception) : string :=
  match e with
  | OperationalError m | OtherException m | BaseExceptionOnly m => m
  end.

(** [isinstance(e, Exception)] *)
Definition is_Exception (e : exception) : bool :=
  match e with
  | BaseExceptionOnly _ => false
  | _ => true
  end.

(** [isinstance(e, aiosqlite.OperationalError)] *)
Definition is_OperationalError (e : exception) : bool :=
  match e with
  | OperationalError _ => true
  | _ => false
  end.

(** A computation either returns or raises. *)
Inductive result (A : Type) : Type :=
| Return (a : A)
| Raise (e : exception).
Arguments Return {A} a.
Arguments Raise {A} e.

(** The values the tools build: dicts keep their insertion order. *)
#[local] Unset Elimination Schemes.
Inductive value : Type :=
| VInt (n : Z)
| VReal (q : Q)
| VStr (s : string)
| VList (l : list value)
| VDict (d : list (string * value)).
#[local] Set Elimination Schemes.

(** Truth value of an optional [str] argument: [None] and [""] are falsy. *)
Definition truthy (s : option string) : bool :=
  match s with
  | None => false
  | Some EmptyString => false
  | Some (String _ _) => true
  end.

(** [str.lower] on the ASCII letters; the bytes of a multi-byte UTF-8
    sequence are all above 127 and are left alone. *)
Definition lower_char (c : ascii) : ascii :=
  let n := N_of_ascii c in
  if ((65 <=? n) && (n <=? 90))%N then ascii_of_N (n + 32) else c.

Fixpoint lower (s : string) : string :=
  match s with
  | EmptyString => EmptyString
  | String c s' => String (lower_char c) (lower s')
  end.

Fixpoint startswith (s p : string) : bool :=
  match p, s with
  | EmptyString, _ => true
  | String _ _, EmptyString => false
  | String a p', String b s' => Ascii.eqb a b && startswith s' p'
  end.

(** [needle in hay] *)
Fixpoint contains (needle hay : string) : bool :=
  startswith hay needle ||
  match hay with
  | EmptyString => false
  | String _ hay' => contains needle hay'
  end.

End Py.
Export Py.

(** ** The [expenses] table *)

Module Expense.
Record t : Type := mk {
  id : Z;
  date : string;
  amount : Q;
  category : string;
  subcategory : string;
  note : string
}.
End Expense.

(** One row of the [GROUP BY category] result. *)
Module Group.
Record t : Type := mk {
  category : string;
  total_amount : Q;
  count : Z
}.
End Group.

Module Sqlite.

(** The table in rowid order and the largest rowid ever handed out. *)
Record database : Type := {
  expenses : list Expense.t;
  sqlite_sequence : Z
}.

Definition empty : database := {| expenses := []; sqlite_sequence := 0 |}.

(** The largest 64-bit rowid. *)
Definition MAX_ROWID : Z := 9223372036854775807.

(** AUTOINCREMENT picks one more than the largest rowid the table has ever
    held; [sqlite_sequence] remembers it across deletions. *)
Definition largest_rowid (db : database) : Z :=
  Z.max (sqlite_sequence db) (fold_right Z.max 0 (map Expense.id (expenses db))).

(** [INSERT INTO expenses(date, amount, category, subcategory, note)
    VALUES (?,?,?,?,?)], giving [lastrowid] and the new table.  When the
    largest rowid is in use the insert fails with SQLITE_FULL, which the
    driver raises as an operational error. *)
Definition insert (db : database) (d : string) (a : Q) (c s n : string)
  : result (Z * database) :=
  let top := largest_rowid db in
  if MAX_ROWID <=? top then
    Raise (OperationalError "database or disk is full")
  else
    let rowid := top + 1 in
    Return (rowid,
            {| expenses := expenses db ++ [Expense.mk rowid d a c s n];
               sqlite_sequence := rowid |}).

(** [DELETE FROM expenses WHERE category = ?] *)
Definition delete_category (db : database) (c : string) : database :=
  {| expenses :=
       filter (fun r => negb (Expense.category r =? c)%string) (expenses db);
     sqlite_sequence := sqlite_sequence db |}.

(** [x BETWEEN lo AND hi] on TEXT: [x >= lo AND x <= hi], bytewise. *)
Definition between (x lo hi : string) : bool :=
  ((lo <=? x) && (x <=? hi))%string.

(** [ORDER BY date DESC, id DESC]: [date_id_desc r1 r2] says that [r1] may
    come before [r2]. *)
Definition date_id_desc (r1 r2 : Expense.t) : bool :=
  match (Expense.date r1 ?= Expense.date r2)%string with
  | Gt => true
  | Lt => false
  | Eq => Expense.id r2 <=? Expense.id r1
  end.

Lemma date_id_desc_total :
  forall r1 r2, date_id_desc r1 r2 = true \/ date_id_desc r2 r1 = true.
Proof.
  intros r1 r2. unfold date_id_desc.
  rewrite (String.compare_antisym (Expense.date r2) (Expense.date r1)).
  destruct (Expense.date r1 ?= Expense.date r2)%string; simpl; auto.
  destruct (Z.leb_spec (Expense.id r2) (Expense.id r1)); auto.
  right. apply Z.leb_le. lia.
Qed.

Module DateIdDesc <: TotalLeBool.
Definition t := Expense.t.
Definition leb := date_id_desc.
Definition leb_total := date_id_desc_total.
End DateIdDesc.

Module RowSort := Sort DateIdDesc.

(** [ORDER BY total_amount DESC] *)
Definition total_desc (g1 g2 : Group.t) : bool :=
  Qle_bool (Group.total_amount g2) (Group.total_amount g1).

Lemma total_desc_total :
  forall g1 g2, total_desc g1 g2 = true \/ total_desc g2 g1 = true.
Proof.
  intros g1 g2. unfold total_desc. rewrite !Qle_bool_iff.
  destruct (Qlt_le_dec (Group.total_amount g1) (Group.total_amount g2)) as [H|H].
  - right. apply Qlt_le_weak, H.
  - left. exact H.
Qed.

Module TotalDesc <: TotalLeBool.
Definition t := Group.t.
Definition leb := total_desc.
Definition leb_total := total_desc_total.
End TotalDesc.

Module GroupSort := Sort TotalDesc.

(** [SELECT id, date, amount, category, subcategory, note FROM expenses
    WHERE date BETWEEN ? AND ? ORDER BY date DESC, id DESC] *)
Definition select_range (db : database) (lo hi : string) : list Expense.t :=
  RowSort.sort
    (filter (fun r => between (Expense.date r) lo hi) (expenses db)).

(** [SUM(amount)] and [COUNT( * )] over the rows of one group.  The sum
    is taken exactly; the engine rounds to a double at each step, so the two
    agree only where no rounding occurs. *)
Definition sum_amount (rows : list Expense.t) : Q :=
  fold_left Qplus (map Expense.amount rows) 0%Q.

Definition count_rows (rows : list Expense.t) : Z :=
  Z.of_nat (List.length rows).

Definition in_category (c : string) (r : Expense.t) : bool :=
  (Expense.category r =? c)%string.

(** [GROUP BY category]: one group for each category that occurs. *)
Definition group_by_category (rows : list Expense.t) : list Group.t :=
  map (fun c =>
         let members := filter (in_category c) rows in
         Group.mk c (sum_amount members) (count_rows members))
      (nodup string_dec (map Expense.category rows)).

(** [SELECT category, SUM(amount) AS total_amount, COUNT( * ) as count
    FROM expenses WHERE <cond> GROUP BY category
    ORDER BY total_amount DESC].  SQL leaves the order of groups with equal
    totals open; the model sorts the groups as [group_by_category] lists
    them, and no statement below fixes the order among equal totals. *)
Definition select_summary (db : database) (cond : Expense.t -> bool)
  : list Group.t :=
  GroupSort.sort (group_by_category (filter cond (expenses db))).

End Sqlite.
Export Sqlite.

(** ** Start-up and the three tools *)

(** The driver raises [fault], when there is one, before the statement of
    the body takes effect; the connection is then closed without a commit.
    A cancellation that arrives after the commit, while the connection is
    closed, is not a fault of this model: it leaves the table as a
    successful call does. *)
Definition driver {A : Type} (fault : option exception) (statement : result A)
  : result A :=
  match fault with
  | Some e => Raise e
  | None => statement
  end.

(** [dict(row)] for the two row shapes. *)
Definition dict_of_expense (r : Expense.t) : value :=
  VDict [("id", VInt (Expense.id r));
         ("date", VStr (Expense.date r));
         ("amount", VReal (Expense.amount r));
         ("category", VStr (Expense.category r));
         ("subcategory", VStr (Expense.subcategory r));
         ("note", VStr (Expense.note r))].

Definition dict_of_group (g : Group.t) : value :=
  VDict [("category", VStr (Group.category g));
         ("total_amount", VReal (Group.total_amount g));
         ("count", VInt (Group.count g))].

Definition error_envelope (message : string) : value :=
  VDict [("status", VStr "error"); ("message", VStr message)].

(** [init_db]: the store is [None] while the file holds no table.
    [CREATE TABLE IF NOT EXISTS] keeps an existing table; the write test
    inserts one row with category ['test'] and then deletes every row with
    that category.  Any exception is printed and raised again. *)
Definition init_db (fault : option exception) (store : option database)
  : result unit * option database :=
  match fault with
  | Some e => (Raise e, store)
  | None =>
    let db := match store with Some db => db | None => Sqlite.empty end in
    match insert db "2000-01-01" 0%Q "test" "" "" with
    | Raise e => (Raise e, Some db)
    | Return (_, db1) => (Return tt, Some (delete_category db1 "test"))
    end
  end.

(** [add_expense]: the new table is kept only when the insert went through. *)
Definition add_expense (fault : option exception) (db : database)
  (date : string) (amount : Q) (category subcategory note : string)
  : result value * database :=
  match driver fault (insert db date amount category subcategory note) with
  | Return (expense_id, db') =>
    (Return (VDict [("status", VStr "success");
                    ("id", VInt expense_id);
                    ("message", VStr "Expense added successfully")]),
     db')
  | Raise e =>
    (if is_OperationalError e then
       let msg := lower (str e) in
       if contains "readonly" msg then
         Return (error_envelope "Database is read-only. Check file permissions.")
       else
         Return (error_envelope ("Database operational error: " ++ str e))
     else if is_Exception e then
       Return (error_envelope ("Unexpected error: " ++ str e))
     else Raise e,
     db)
  end.

(** [list_expenses] *)
Definition list_expenses (fault : option exception) (db : database)
  (start_date end_date : string) : result value :=
  match driver fault (Return (select_range db start_date end_date)) with
  | Return rows =>
    Return (VDict [("status", VStr "success");
                   ("expenses", VList (map dict_of_expense rows))])
  | Raise e =>
    if is_Exception e then
      Return (error_envelope ("Error listing expenses: " ++ str e))
    else Raise e
  end.

(** The WHERE clause [summarize] builds: the category test is appended
    only when the argument is truthy. *)
Definition summarize_where (start_date end_date : string)
  (category : option string) (r : Expense.t) : bool :=
  between (Expense.date r) start_date end_date &&
  (if truthy category then
     match category with
     | Some c => in_category c r
     | None => true
     end
   else true).

(** [summarize] *)
Definition summarize (fault : option exception) (db : database)
  (start_date end_date : string) (category : option string) : result value :=
  match driver fault
          (Return (select_summary db
                     (summarize_where start_date end_date category))) with
  | Return rows =>
    Return (VDict [("status", VStr "success");
                   ("summary", VList (map dict_of_group rows))])
  | Raise e =>
    if is_Exception e then
      Return (error_envelope ("Error summarizing expenses: " ++ str e))
    else Raise e
  end.

(** ** The categories resource *)

(** Strict UTF-8 decoding, from the byte representation of a [str] to its
    code points: no overlong forms, no surrogates, nothing above U+10FFFF. *)
Module Utf8.

Definition byte (c : ascii) : Z := Z.of_N (N_of_ascii c).

Definition within (lo hi : Z) (c : ascii) : bool :=
  (lo <=? byte c) && (byte c <=? hi).

Definition continuation (c : ascii) : bool := within 128 191 c.

Definition tail (c : ascii) : Z := byte c - 128.

Fixpoint decode (s : string) : option (list Z) :=
  match s with
  | EmptyString => Some []
  | String b0 s1 =>
    let n0 := byte b0 in
    if n0 <? 128 then option_map (cons n0) (decode s1)
    else if (194 <=? n0) && (n0 <=? 223) then
      match s1 with
      | String b1 s2 =>
        if continuation b1
        then option_map (cons ((n0 - 192) * 64 + tail b1)) (decode s2)
        else None
      | _ => None
      end
    else if (224 <=? n0) && (n0 <=? 239) then
      match s1 with
      | String b1 (String b2 s3) =>
        if within (if n0 =? 224 then 160 else 128)
                  (if n0 =? 237 then 159 else 191) b1
           && continuation b2
        then option_map
               (cons ((n0 - 224) * 4096 + tail b1 * 64 + tail b2))
               (decode s3)
        else None
      | _ => None
      end
    else if (240 <=? n0) && (n0 <=? 244) then
      match s1 with
      | String b1 (String b2 (String b3 s4)) =>
        if within (if n0 =? 240 then 144 else 128)
                  (if n0 =? 244 then 143 else 191) b1
           && continuation b2 && continuation b3
        then option_map
               (cons ((n0 - 240) * 262144 + tail b1 * 4096
                      + tail b2 * 64 + tail b3))
               (decode s4)
        else None
      | _ => None
      end
    else None
  end.

(** The code points of a [str]; a byte string that encodes no [str] does not
    arise and is read byte by byte. *)
Definition code_points (s : string) : list Z :=
  match decode s with
  | Some cps => cps
  | None => map byte (list_ascii_of_string s)
  end.

End Utf8.

(** [json.dumps] on the documents the resource builds: strings, lists and
    dicts, with the default [ensure_ascii=True]. *)
Module Json.

#[local] Unset Elimination Schemes.
Inductive t : Type :=
| Str (s : string)
| Arr (l : list t)
| Obj (d : list (string * t)).
#[local] Set Elimination Schemes.

Definition chr (n : Z) : string := String (ascii_of_N (Z.to_N n)) EmptyString.

Definition quote : string := chr 34.
Definition newline : string := chr 10.

Definition hex_digit (n : Z) : string :=
  if n <? 10 then chr (48 + n) else chr (87 + n).

(** ['{0:04x}'.format(n)] for [n] below 65536 *)
Definition hex4 (n : Z) : string :=
  hex_digit (n / 4096 mod 16) ++ hex_digit (n / 256 mod 16) ++
  hex_digit (n / 16 mod 16) ++ hex_digit (n mod 16).

(** The replacement of one code point in [encode_basestring_ascii]:
    printable ASCII stays, the quote, the backslash and the control
    characters get their escapes, anything else becomes [\uXXXX], as a
    surrogate pair above the basic plane. *)
Definition escape (cp : Z) : string :=
  if cp =? 34 then "\" ++ quote
  else if cp =? 92 then "\\"
  else if cp =? 8 then "\b"
  else if cp =? 12 then "\f"
  else if cp =? 10 then "\n"
  else if cp =? 13 then "\r"
  else if cp =? 9 then "\t"
  else if (32 <=? cp) && (cp <=? 126) then chr cp
  else if cp <? 65536 then "\u" ++ hex4 cp
  else
    let n := cp - 65536 in
    "\u" ++ hex4 (Z.lor 55296 (Z.land (Z.shiftr n 10) 1023)) ++
    "\u" ++ hex4 (Z.lor 56320 (Z.land n 1023)).

Definition encode_basestring_ascii (s : string) : string :=
  quote ++ String.concat "" (map escape (Utf8.code_points s)) ++ quote.

Fixpoint spaces (n : nat) : string :=
  match n with
  | O => EmptyString
  | S n' => String " " (spaces n')
  end.

(** The line break and indentation written at nesting depth [level]; nothing
    when [indent] is [None]. *)
Definition newline_indent (indent : option nat) (level : nat) : string :=
  match indent with
  | Some n => newline ++ spaces (n * level)
  | None => EmptyString
  end.

(** The item separator is [", "], and [","] once an indent is given. *)
Definition item_separator (indent : option nat) (level : nat) : string :=
  match indent with
  | Some _ => "," ++ newline_indent indent level
  | None => ", "
  end.

Definition key_separator : string := ": ".

Fixpoint iterencode (indent : option nat) (level : nat) (o : t) {struct o}
  : string :=
  match o with
  | Str s => encode_basestring_ascii s
  | Arr [] => "[]"
  | Arr (x :: xs) =>
    "[" ++ newline_indent indent (S level)
    ++ iterencode indent (S level) x
    ++ (fix items (l : list t) : string :=
          match l with
          | [] => EmptyString
          | y :: l' =>
            item_separator indent (S level)
            ++ iterencode indent (S level) y ++ items l'
          end) xs
    ++ newline_indent indent level ++ "]"
  | Obj [] => "{}"
  | Obj ((k, x) :: d) =>
    "{" ++ newline_indent indent (S level)
    ++ encode_basestring_ascii k ++ key_separator
    ++ iterencode indent (S level) x
    ++ (fix items (l : list (string * t)) : string :=
          match l with
          | [] => EmptyString
          | (k', y) :: l' =>
            item_separator indent (S level)
            ++ encode_basestring_ascii k' ++ key_separator
            ++ iterencode indent (S level) y ++ items l'
          end) d
    ++ newline_indent indent level ++ "}"
  end.

(** [json.dumps(o, indent=indent)] *)
Definition dumps (o : t) (indent : option nat) : string :=
  iterencode indent 0 o.

End Json.

(** The object [open] returns, seen through the one method the code calls. *)
Record TextIOWrapper : Type := {
  read : result string
}.

(** What the code meets at [CATEGORIES_PATH]: nothing, or something for
    which [os.path.exists] holds and [open] returns a file object or raises. *)
Inductive path_state : Type :=
| Missing
| Present (opened : result TextIOWrapper).

(** [async with mgr as f: body].  The statement looks up [__aenter__] and
    [__aexit__] on the type of [mgr]; a file object has neither, so the
    statement raises [TypeError] before the body runs (the text is the one of
    CPython 3.11 and later). *)
Definition async_with {A : Type} (mgr : TextIOWrapper)
  (body : TextIOWrapper -> result A) : result A :=
  Raise (OtherException
    "'_io.TextIOWrapper' object does not support the asynchronous context manager protocol").

Definition default_categories : Json.t :=
  Json.Obj [("categories",
             Json.Arr [Json.Str "Food & Dining";
                       Json.Str "Transportation";
                       Json.Str "Shopping";
                       Json.Str "Entertainment";
                       Json.Str "Bills & Utilities";
                       Json.Str "Healthcare";
                       Json.Str "Travel";
                       Json.Str "Education";
                       Json.Str "Business";
                       Json.Str "Other"])].

(** [categories] *)
Definition categories (path : path_state) : result string :=
  let body :=
    match path with
    | Present opened =>
      match opened with
      | Return mgr => async_with mgr (fun f => read f)
      | Raise e => Raise e
      end
    | Missing => Return (Json.dumps default_categories (Some 2%nat))
    end in
  match body with
  | Return text => Return text
  | Raise e =>
    if is_Exception e then
      Return (Json.dumps
                (Json.Obj [("error",
                            Json.Str ("Could not load categories: " ++ str e))])
                None)
    else Raise e
  end.

(** * Vocabulary of the statements *)

(** ** The envelopes of the three tools *)

Definition added (expense_id : Z) : value :=
  VDict [("status", VStr "success");
         ("id", VInt expense_id);
         ("message", VStr "Expense added successfully")].

Definition listing (out : list value) : value :=
  VDict [("status", VStr "success"); ("expenses", VList out)].

Definition summary (out : list value) : value :=
  VDict [("status", VStr "success"); ("summary", VList out)].

(** The rows of the table whose date lies in the range. *)
Definition in_range (db : database) (lo hi : string) : list Expense.t :=
  filter (fun r => between (Expense.date r) lo hi) (expenses db).

(** The table after any number of further [add_expense] calls, whatever
    their arguments and whatever the driver does. *)
Inductive later : database -> database -> Prop :=
| later_now : forall db, later db db
| later_add : forall db db1 fault date amount category subcategory note,
    later db db1 ->
    later db
      (snd (add_expense fault db1 date amount category subcategory note)).

(** [r1] has the later date, or the same date and the larger id. *)
Definition newer (r1 r2 : Expense.t) : Prop :=
  (Expense.date r2 <? Expense.date r1)%string = true
  \/ (Expense.date r1 = Expense.date r2 /\ Expense.id r2 < Expense.id r1).

(** The text of a JSON string without escapes, and a text from its lines. *)
Definition quoted (s : string) : string := Json.quote ++ s ++ Json.quote.

Definition lines (l : list string) : string := String.concat Json.newline l.

(** ** A table to evaluate the operations on *)

Definition lunch : Expense.t :=
  Expense.mk 2 "2024-01-05" (85 # 2) "Food & Dining" "" "lunch".
Definition probe : Expense.t :=
  Expense.mk 3 "2024-01-20" 12 "test" "" "unit under test".
Definition taxi : Expense.t :=
  Expense.mk 4 "2024-01-05" 30 "Travel" "taxi" "".
Definition dinner : Expense.t :=
  Expense.mk 5 "2024-02-01" 8 "Food & Dining" "" "".

Definition sample : database :=
  {| expenses := [lunch; probe; taxi; dinner]; sqlite_sequence := 5 |}.

(** ** States of the store *)

(** The tables the program can reach: a start-up on a file without table,
    then [add_expense] calls and further start-ups, each with any fault. *)
Inductive reachable : database -> Prop :=
| reach_start : forall fault db,
    snd (init_db fault None) = Some db -> reachable db
| reach_add : forall db fault date amount category subcategory note,
    reachable db ->
    reachable
      (snd (add_expense fault db date amount category subcategory note))
| reach_restart : forall db fault db',
    reachable db ->
    snd (init_db fault (Some db)) = Some db' -> reachable db'.

(** The ids grow along the table, are positive, and none is above the
    AUTOINCREMENT counter. *)
Definition ids_increasing (db : database) : Prop :=
  StronglySorted Z.lt (map Expense.id (expenses db))
  /\ forall r, In r (expenses db) ->
       0 < Expense.id r <= sqlite_sequence db.

(** The characters [json.dumps] may write with [ensure_ascii]: the
    printable ASCII range. *)
Definition printable (c : ascii) : bool :=
  (32 <=? Utf8.byte c) && (Utf8.byte c <=? 126).

Fixpoint all_chars (p : ascii -> bool) (s : string) : bool :=
  match s with
  | EmptyString => true
  | String c s' => p c && all_chars p s'
  end.

(** The sum of [count] over a list of groups. *)
Definition sum_counts (gs : list Group.t) : Z :=
  fold_right (fun g acc => Group.count g + acc) 0 gs.

(** The sum of [f c] over the labels [cs], in integers. *)
Definition count_over (f : string -> Z) (cs : list string) : Z :=
  fold_right (fun c acc => f c + acc) 0 cs.

(** * Properties *)

(** ** Bytewise order on strings *)

Lemma ascii_compare_refl (a : ascii) : (a ?= a)%char = Eq.
Proof. unfold Ascii.compare. apply N.compare_refl. Qed.

Lemma string_compare_refl (s : string) : (s ?= s)%string = Eq.
Proof.
  induction s as [|a s IH]; simpl; [reflexivity|].
  now rewrite ascii_compare_refl.
Qed.

Lemma string_leb_refl (s : string) : (s <=? s)%string = true.
Proof. unfold String.leb. now rewrite string_compare_refl. Qed.

Lemma ascii_compare_lt_trans (a b c : ascii) :
  (a ?= b)%char = Lt -> (b ?= c)%char = Lt -> (a ?= c)%char = Lt.
Proof.
  unfold Ascii.compare. rewrite !N.compare_lt_iff. apply N.lt_trans.
Qed.

Lemma string_compare_lt_trans (s1 : string) :
  forall s2 s3,
    (s1 ?= s2)%string = Lt -> (s2 ?= s3)%string = Lt ->
    (s1 ?= s3)%string = Lt.
Proof.
  induction s1 as [|a s1 IH]; intros [|b s2] [|c s3]; simpl;
    try congruence.
  destruct (a ?= b)%char eqn:Hab; try discriminate;
    destruct (b ?= c)%char eqn:Hbc; try discriminate; intros H12 H23.
  - apply Ascii.compare_eq_iff in Hab, Hbc. subst.
    rewrite ascii_compare_refl. eauto.
  - apply Ascii.compare_eq_iff in Hab. subst. now rewrite Hbc.
  - apply Ascii.compare_eq_iff in Hbc. subst. now rewrite Hab.
  - now rewrite (ascii_compare_lt_trans a b c Hab Hbc).
Qed.

Lemma string_compare_gt_lt (s1 s2 : string) :
  (s1 ?= s2)%string = Gt <-> (s2 ?= s1)%string = Lt.
Proof.
  rewrite (String.compare_antisym s2 s1).
  destruct (s1 ?= s2)%string; simpl; split; congruence.
Qed.

Lemma string_compare_gt_trans (s1 s2 s3 : string) :
  (s1 ?= s2)%string = Gt -> (s2 ?= s3)%string = Gt ->
  (s1 ?= s3)%string = Gt.
Proof.
  rewrite !string_compare_gt_lt. intros H12 H23.
  exact (string_compare_lt_trans s3 s2 s1 H23 H12).
Qed.

Lemma date_id_desc_trans : Transitive (fun r1 r2 => is_true (date_id_desc r1 r2)).
Proof.
  intros r1 r2 r3. unfold is_true, date_id_desc.
  destruct (Expense.date r1 ?= Expense.date r2)%string eqn:H12;
    try discriminate;
    destruct (Expense.date r2 ?= Expense.date r3)%string eqn:H23;
    try discriminate.
  - apply String.compare_eq_iff in H12, H23. rewrite H12, H23.
    rewrite string_compare_refl, !Z.leb_le. lia.
  - apply String.compare_eq_iff in H12. rewrite H12, H23. auto.
  - apply String.compare_eq_iff in H23. rewrite <- H23, H12. auto.
  - rewrite (string_compare_gt_trans _ _ _ H12 H23). auto.
Qed.

(** ** Rows and their dicts *)

Lemma dict_of_expense_inj (r1 r2 : Expense.t) :
  dict_of_expense r1 = dict_of_expense r2 -> r1 = r2.
Proof.
  destruct r1, r2. unfold dict_of_expense. simpl.
  intros H. injection H as -> -> -> -> -> ->. reflexivity.
Qed.

Lemma dict_of_group_inj (g1 g2 : Group.t) :
  dict_of_group g1 = dict_of_group g2 -> g1 = g2.
Proof.
  destruct g1, g2. unfold dict_of_group. simpl.
  intros H. injection H as -> -> ->. reflexivity.
Qed.

Lemma map_injective {A B : Type} (f : A -> B) :
  (forall x y, f x = f y -> x = y) ->
  forall l1 l2, map f l1 = map f l2 -> l1 = l2.
Proof.
  intros Hf. induction l1 as [|x l1 IH]; intros [|y l2]; simpl;
    try congruence.
  intros H. injection H as Hxy Hl. f_equal; auto.
Qed.

Lemma in_map_dict_of_expense (r : Expense.t) (rows : list Expense.t) :
  In (dict_of_expense r) (map dict_of_expense rows) <-> In r rows.
Proof.
  rewrite in_map_iff. split.
  - intros (r' & H & Hin). apply dict_of_expense_inj in H. now subst.
  - intros Hin. now exists r.
Qed.

Lemma in_select_range (db : database) (lo hi : string) (r : Expense.t) :
  In r (select_range db lo hi) <->
  In r (expenses db) /\ between (Expense.date r) lo hi = true.
Proof.
  unfold select_range. split; intros H.
  - apply (filter_In (fun r => between (Expense.date r) lo hi)).
    eapply Permutation_in; [|exact H].
    apply Permutation_sym, RowSort.Permuted_sort.
  - apply (filter_In (fun r => between (Expense.date r) lo hi)) in H.
    eapply Permutation_in; [|exact H]. apply RowSort.Permuted_sort.
Qed.

(** ** Start-up *)

Lemma init_db_rows (db : database) (store' : option database) :
  init_db None (Some db) = (Return tt, store') ->
  exists db',
    store' = Some db' /\
    expenses db' =
      filter (fun r => negb (Expense.category r =? "test")%string)
             (expenses db).
Proof.
  unfold init_db, insert.
  destruct (MAX_ROWID <=? largest_rowid db); [discriminate|].
  intros H. injection H as <-. eexists. split; [reflexivity|].
  simpl. rewrite filter_app. simpl. apply app_nil_r.
Qed.

(** C4.  A second start-up on a table that holds an expense filed under the
    category "test" succeeds and removes that expense: the clean-up of the
    write test deletes by category, not the one row it inserted. *)
Theorem init_db_deletes_test_rows :
  init_db None (Some sample) =
    (Return tt,
     Some {| expenses := [lunch; taxi; dinner]; sqlite_sequence := 6 |})
  /\ In probe (expenses sample)
  /\ ~ In probe [lunch; taxi; dinner].
Proof.
  split; [reflexivity|]. split.
  - simpl. auto.
  - simpl. unfold probe, lunch, taxi, dinner.
    intros [H|[H|[H|[]]]]; discriminate H.
Qed.

(** ** The tools under exceptions *)

(** C8.  When the insert raises an operational error whose lower-cased text
    contains "readonly" (SQLite says "attempt to write a readonly
    database"), [add_expense] answers with status "error" and the dedicated
    message, and the table is left as it was. *)
Theorem add_expense_readonly (db : database) (date : string) (amount : Q)
  (category subcategory note msg : string) :
  contains "readonly" (lower msg) = true ->
  add_expense (Some (OperationalError msg)) db
              date amount category subcategory note =
    (Return (VDict [("status", VStr "error");
                    ("message",
                     VStr "Database is read-only. Check file permissions.")]),
     db).
Proof.
  intros H. unfold add_expense. simpl. now rewrite H.
Qed.

Lemma add_expense_readonly_witness :
  contains "readonly" (lower "attempt to write a readonly database") = true /\
  add_expense (Some (OperationalError "attempt to write a readonly database"))
              sample "2024-03-01" 5 "Travel" "" "" =
    (Return (VDict [("status", VStr "error");
                    ("message",
                     VStr "Database is read-only. Check file permissions.")]),
     sample).
Proof.
  split; [reflexivity|]. apply add_expense_readonly. reflexivity.
Defined.

(** C7, as stated, fails: an exception outside [Exception], such as the
    cancellation of the running task, passes both [except] clauses of every
    tool and reaches the caller. *)
Lemma base_exception_propagates :
  fst (add_expense (Some (BaseExceptionOnly "")) sample
                   "2024-03-01" 5 "Travel" "" "")
    = Raise (BaseExceptionOnly "")
  /\ list_expenses (Some (BaseExceptionOnly "")) sample
                   "2024-01-01" "2024-01-31"
    = Raise (BaseExceptionOnly "")
  /\ summarize (Some (BaseExceptionOnly "")) sample
               "2024-01-01" "2024-01-31" None
    = Raise (BaseExceptionOnly "").
Proof. repeat split. Qed.

(** C7, amended.  Whenever the driver raises nothing or an instance of
    [Exception], each tool returns a value and raises nothing; and when the
    body does raise such an exception, what is returned is exactly an
    envelope with status "error" and a message. *)
Theorem tools_catch_exceptions (fault : option exception) (db : database)
  (date : string) (amount : Q) (category subcategory note : string)
  (start_date end_date : string) (filter_category : option string) :
  (forall e, fault = Some e -> is_Exception e = true) ->
  (exists v,
      fst (add_expense fault db date amount category subcategory note)
      = Return v)
  /\ (exists v, list_expenses fault db start_date end_date = Return v)
  /\ (exists v,
         summarize fault db start_date end_date filter_category = Return v)
  /\ (forall e, fault = Some e ->
        (exists m,
            add_expense fault db date amount category subcategory note
            = (Return (VDict [("status", VStr "error"); ("message", VStr m)]),
               db))
        /\ (exists m,
               list_expenses fault db start_date end_date
               = Return (VDict [("status", VStr "error");
                                ("message", VStr m)]))
        /\ (exists m,
               summarize fault db start_date end_date filter_category
               = Return (VDict [("status", VStr "error");
                                ("message", VStr m)]))).
Proof.
  intros Hexc. destruct fault as [e|].
  - specialize (Hexc e eq_refl).
    assert (Hadd : exists m,
               add_expense (Some e) db date amount category subcategory note
               = (Return (error_envelope m), db)).
    { unfold add_expense. simpl.
      destruct e as [m|m|m]; simpl in *; try discriminate.
      - destruct (contains "readonly" (lower m)); eexists; reflexivity.
      - eexists; reflexivity. }
    assert (Hlist : exists m,
               list_expenses (Some e) db start_date end_date
               = Return (error_envelope m)).
    { unfold list_expenses. simpl. rewrite Hexc. eexists; reflexivity. }
    assert (Hsum : exists m,
               summarize (Some e) db start_date end_date filter_category
               = Return (error_envelope m)).
    { unfold summarize. simpl. rewrite Hexc. eexists; reflexivity. }
    destruct Hadd as [ma Hadd], Hlist as [ml Hlist], Hsum as [ms Hsum].
    repeat split.
    + rewrite Hadd. eexists; reflexivity.
    + rewrite Hlist. eexists; reflexivity.
    + rewrite Hsum. eexists; reflexivity.
    + exists ma. exact Hadd.
    + exists ml. exact Hlist.
    + exists ms. exact Hsum.
  - repeat split.
    + unfold add_expense, driver, insert.
      destruct (MAX_ROWID <=? largest_rowid db); simpl; eexists; reflexivity.
    + eexists; reflexivity.
    + eexists; reflexivity.
    + easy.
    + easy.
    + easy.
Qed.

Lemma tools_catch_exceptions_witness :
  (forall e, Some (OtherException "database is locked") = Some e ->
             is_Exception e = true)
  /\ exists m,
       list_expenses (Some (OtherException "database is locked")) sample
                     "2024-01-01" "2024-01-31"
       = Return (VDict [("status", VStr "error"); ("message", VStr m)]).
Proof.
  assert (H : forall e, Some (OtherException "database is locked") = Some e ->
                        is_Exception e = true).
  { intros e He. injection He as <-. reflexivity. }
  split; [exact H|].
  destruct (tools_catch_exceptions
              (Some (OtherException "database is locked")) sample
              "2024-03-01" 5 "Travel" "" "" "2024-01-01" "2024-01-31" None H)
    as (_ & _ & _ & Herr).
  exact (proj1 (proj2 (Herr (OtherException "database is locked") eq_refl))).
Defined.

(** ** The categories resource *)

(** C9.  With no file at [CATEGORIES_PATH] the resource returns the JSON
    text of one object whose only field, "categories", is the list of the
    ten built-in labels in their order, printed with an indent of two. *)
Theorem categories_fallback :
  categories Missing =
    Return (lines ["{";
                   "  " ++ quoted "categories" ++ ": [";
                   "    " ++ quoted "Food & Dining" ++ ",";
                   "    " ++ quoted "Transportation" ++ ",";
                   "    " ++ quoted "Shopping" ++ ",";
                   "    " ++ quoted "Entertainment" ++ ",";
                   "    " ++ quoted "Bills & Utilities" ++ ",";
                   "    " ++ quoted "Healthcare" ++ ",";
                   "    " ++ quoted "Travel" ++ ",";
                   "    " ++ quoted "Education" ++ ",";
                   "    " ++ quoted "Business" ++ ",";
                   "    " ++ quoted "Other";
                   "  ]";
                   "}"])
  /\ categories Missing =
       Return (Json.dumps
                 (Json.Obj [("categories",
                             Json.Arr (map Json.Str
                               ["Food & Dining"; "Transportation"; "Shopping";
                                "Entertainment"; "Bills & Utilities";
                                "Healthcare"; "Travel"; "Education";
                                "Business"; "Other"]))])
                 (Some 2%nat)).
Proof. split; reflexivity. Qed.

(** C5.  When the file exists and [open] succeeds, the resource never gets to
    read it: entering [async with] on the file object raises, the handler
    catches that, and the answer is the error document whatever the file
    holds. *)
Theorem categories_existing_file_is_error (f : TextIOWrapper) :
  categories (Present (Return f)) =
    Return ("{" ++ quoted "error" ++ ": "
            ++ quoted "Could not load categories: '_io.TextIOWrapper' object does not support the asynchronous context manager protocol"
            ++ "}").
Proof. reflexivity. Qed.

(** The same at one file: its contents are not what comes back. *)
Lemma categories_not_verbatim :
  let contents := "{" ++ quoted "categories" ++ ": []}" in
  categories (Present (Return {| read := Return contents |}))
  <> Return contents.
Proof. simpl. intros H. discriminate H. Qed.

(** ** Range queries *)

Lemma string_ltb_not_leb (x y : string) :
  (x <? y)%string = true -> (y <=? x)%string = false.
Proof.
  unfold String.ltb, String.leb. rewrite (String.compare_antisym x y).
  destruct (y ?= x)%string; simpl; congruence.
Qed.

Lemma list_expenses_returns (db : database) (start_date end_date : string) :
  list_expenses None db start_date end_date =
  Return (listing (map dict_of_expense (select_range db start_date end_date))).
Proof. reflexivity. Qed.

(** C6, as stated, fails on a range whose bounds are in the wrong order: the
    expense dated [start_date] is not returned. *)
Lemma inverted_range_excludes_its_bound :
  In dinner (expenses sample)
  /\ Expense.date dinner = "2024-02-01"
  /\ list_expenses None sample "2024-02-01" "2024-01-01"
     = Return (listing [])
  /\ ~ In (dict_of_expense dinner) [].
Proof.
  split; [simpl; auto 6|]. split; [reflexivity|]. split; [reflexivity|].
  intros [].
Qed.

(** The comparison is bytewise: a date written without leading zeros falls
    outside a January range that contains it on the calendar. *)
Example lexical_not_calendar :
  between "2024-1-5" "2024-01-01" "2024-01-31" = false
  /\ between "2024-01-05" "2024-01-01" "2024-01-31" = true.
Proof. split; reflexivity. Qed.

(** C6, amended.  A stored expense is returned exactly when its date lies
    between the two bounds in bytewise order, whatever the bounds: one dated
    below [start_date] or above [end_date] is never returned; and when
    [start_date <= end_date], one dated [start_date] or [end_date] is
    returned. *)
Theorem list_expenses_inclusive_range (db : database)
  (start_date end_date : string) :
  exists out,
    list_expenses None db start_date end_date = Return (listing out)
    /\ forall r,
        (In (dict_of_expense r) out <->
         In r (expenses db)
         /\ (start_date <=? Expense.date r)%string = true
         /\ (Expense.date r <=? end_date)%string = true)
        /\ ((Expense.date r <? start_date)%string = true
            \/ (end_date <? Expense.date r)%string = true ->
            ~ In (dict_of_expense r) out)
        /\ ((start_date <=? end_date)%string = true ->
            In r (expenses db) ->
            Expense.date r = start_date \/ Expense.date r = end_date ->
            In (dict_of_expense r) out).
Proof.
  eexists. split; [apply list_expenses_returns|].
  intros r.
  assert (Hiff : In (dict_of_expense r)
                    (map dict_of_expense
                         (select_range db start_date end_date)) <->
                 In r (expenses db)
                 /\ (start_date <=? Expense.date r)%string = true
                 /\ (Expense.date r <=? end_date)%string = true).
  { rewrite in_map_dict_of_expense, in_select_range.
    unfold between. rewrite andb_true_iff. reflexivity. }
  split; [exact Hiff|]. split.
  - intros Hout Hin. apply Hiff in Hin. destruct Hin as (_ & Hlo & Hhi).
    destruct Hout as [H|H]; apply string_ltb_not_leb in H; congruence.
  - intros Hle Hin [Hd|Hd]; apply Hiff; rewrite Hd;
      auto using string_leb_refl.
Qed.

Lemma list_expenses_inclusive_range_witness :
  ("2024-01-05" <=? "2024-02-01")%string = true
  /\ exists out,
      list_expenses None sample "2024-01-05" "2024-02-01"
      = Return (listing out)
      /\ In (dict_of_expense lunch) out
      /\ In (dict_of_expense dinner) out
      /\ ~ In (dict_of_expense
                 (Expense.mk 7 "2024-02-02" 1 "Travel" "" "")) out.
Proof.
  split; [reflexivity|].
  destruct (list_expenses_inclusive_range sample "2024-01-05" "2024-02-01")
    as (out & Hret & Hall).
  exists out. split; [exact Hret|]. split; [|split].
  - apply (Hall lunch); [reflexivity | simpl; auto | left; reflexivity].
  - apply (Hall dinner); [reflexivity | simpl; auto | right; reflexivity].
  - apply (Hall (Expense.mk 7 "2024-02-02" 1 "Travel" "" "")).
    right. reflexivity.
Defined.

(** ** Insertion *)

Lemma id_le_largest (rows : list Expense.t) (r : Expense.t) :
  In r rows -> Expense.id r <= fold_right Z.max 0 (map Expense.id rows).
Proof.
  induction rows as [|x rows IH]; simpl; [tauto|].
  intros [->|Hin]; [lia|]. specialize (IH Hin). lia.
Qed.

Lemma add_expense_success (fault : option exception) (db db1 : database)
  (date : string) (amount : Q) (category subcategory note : string)
  (rid : Z) :
  add_expense fault db date amount category subcategory note
  = (Return (added rid), db1) ->
  rid = largest_rowid db + 1
  /\ db1 = {| expenses :=
                expenses db
                ++ [Expense.mk rid date amount category subcategory note];
              sqlite_sequence := rid |}.
Proof.
  unfold add_expense, driver, insert, added, error_envelope.
  destruct fault as [e|].
  - destruct e as [m|m|m]; simpl;
      try destruct (contains "readonly" (lower m)); discriminate.
  - destruct (MAX_ROWID <=? largest_rowid db); simpl; [discriminate|].
    intros H. injection H as <- <-. auto.
Qed.





(** ** Order of a listing *)

Lemma StronglySorted_nth_error {A : Type} (R : A -> A -> Prop) (l : list A) :
  StronglySorted R l ->
  forall i j a b,
    (i < j)%nat -> nth_error l i = Some a -> nth_error l j = Some b -> R a b.
Proof.
  induction 1 as [|x l Hsorted IH Hall]; intros i j a b Hij Hi Hj.
  - destruct i; discriminate Hi.
  - destruct j as [|j]; [lia|]. simpl in Hj. destruct i as [|i].
    + simpl in Hi. injection Hi as <-.
      apply nth_error_In in Hj. rewrite Forall_forall in Hall. auto.
    + simpl in Hi. apply (IH i j); auto. lia.
Qed.

Lemma newer_not_after (r1 r2 : Expense.t) :
  newer r1 r2 -> date_id_desc r2 r1 = false.
Proof.
  unfold newer, date_id_desc, String.ltb. intros [H|[Hd Hid]].
  - destruct (Expense.date r2 ?= Expense.date r1)%string;
      congruence.
  - rewrite Hd, string_compare_refl. apply Z.leb_gt. exact Hid.
Qed.

Lemma select_range_positions (db : database) (lo hi : string)
  (r1 r2 : Expense.t) (i j : nat) :
  newer r1 r2 ->
  nth_error (select_range db lo hi) i = Some r1 ->
  nth_error (select_range db lo hi) j = Some r2 ->
  (i < j)%nat.
Proof.
  intros Hnewer Hi Hj. apply newer_not_after in Hnewer.
  pose proof (RowSort.StronglySorted_sort
                (filter (fun r => between (Expense.date r) lo hi)
                        (expenses db))
                date_id_desc_trans) as Hsorted.
  fold (select_range db lo hi) in Hsorted.
  destruct (lt_eq_lt_dec i j) as [[Hlt|Heq]|Hgt]; [exact Hlt| |].
  - subst j. rewrite Hi in Hj. injection Hj as <-.
    destruct (date_id_desc_total r1 r1); congruence.
  - pose proof (StronglySorted_nth_error _ _ Hsorted j i r2 r1 Hgt Hj Hi)
      as Hbefore.
    unfold is_true in Hbefore. simpl in Hbefore.
    unfold DateIdDesc.leb in Hbefore. congruence.
Qed.

Lemma nth_error_map_dict (rows : list Expense.t) (r : Expense.t) (i : nat) :
  nth_error (map dict_of_expense rows) i = Some (dict_of_expense r) <->
  nth_error rows i = Some r.
Proof.
  rewrite nth_error_map. split.
  - destruct (nth_error rows i) as [r'|]; simpl; [|discriminate].
    intros H.
    assert (H' : dict_of_expense r' = dict_of_expense r) by congruence.
    apply dict_of_expense_inj in H'. now subst.
  - intros ->. reflexivity.
Qed.

(** C3.  Of two stored expenses that a range query both matches, the one
    with the bytewise greater date comes first in the listing, and of two
    with the same date the one with the greater id: both are in the listing,
    and every place of the first is before every place of the second. *)
Theorem list_expenses_order (db : database) (start_date end_date : string)
  (r1 r2 : Expense.t) :
  In r1 (expenses db) -> In r2 (expenses db) ->
  ((start_date <=? Expense.date r1)
   && (Expense.date r1 <=? end_date))%string = true ->
  ((start_date <=? Expense.date r2)
   && (Expense.date r2 <=? end_date))%string = true ->
  (Expense.date r2 <? Expense.date r1)%string = true
  \/ (Expense.date r1 = Expense.date r2 /\ Expense.id r2 < Expense.id r1) ->
  exists out,
    list_expenses None db start_date end_date
    = Return (VDict [("status", VStr "success"); ("expenses", VList out)])
    /\ (exists i j,
           nth_error out i = Some (dict_of_expense r1)
           /\ nth_error out j = Some (dict_of_expense r2)
           /\ (i < j)%nat)
    /\ (forall i j,
           nth_error out i = Some (dict_of_expense r1) ->
           nth_error out j = Some (dict_of_expense r2) ->
           (i < j)%nat).
Proof.
  intros Hin1 Hin2 Hr1 Hr2 Hnewer.
  eexists. split; [apply list_expenses_returns|].
  assert (Hplaces : forall i j,
             nth_error (map dict_of_expense
                            (select_range db start_date end_date)) i
             = Some (dict_of_expense r1) ->
             nth_error (map dict_of_expense
                            (select_range db start_date end_date)) j
             = Some (dict_of_expense r2) ->
             (i < j)%nat).
  { intros i j Hi Hj. apply nth_error_map_dict in Hi, Hj.
    exact (select_range_positions db start_date end_date r1 r2 i j
             Hnewer Hi Hj). }
  split; [|exact Hplaces].
  assert (Hs1 : In r1 (select_range db start_date end_date))
    by (apply in_select_range; auto).
  assert (Hs2 : In r2 (select_range db start_date end_date))
    by (apply in_select_range; auto).
  apply In_nth_error in Hs1, Hs2.
  destruct Hs1 as [i Hi], Hs2 as [j Hj].
  apply nth_error_map_dict in Hi, Hj.
  exists i, j. auto.
Qed.

Lemma list_expenses_order_witness :
  exists out,
    list_expenses None sample "2024-01-01" "2024-12-31"
    = Return (listing out)
    /\ (forall i j,
           nth_error out i = Some (dict_of_expense taxi) ->
           nth_error out j = Some (dict_of_expense lunch) ->
           (i < j)%nat)
    /\ (forall i j,
           nth_error out i = Some (dict_of_expense dinner) ->
           nth_error out j = Some (dict_of_expense probe) ->
           (i < j)%nat).
Proof.
  assert (Hlunch : In lunch (expenses sample)) by (simpl; auto).
  assert (Hprobe : In probe (expenses sample)) by (simpl; auto).
  assert (Htaxi : In taxi (expenses sample)) by (simpl; auto 6).
  assert (Hdinner : In dinner (expenses sample)) by (simpl; auto 6).
  destruct (list_expenses_order sample "2024-01-01" "2024-12-31" taxi lunch
              Htaxi Hlunch eq_refl eq_refl
              (or_intror (conj eq_refl eq_refl)))
    as (out & Hret & _ & Hsame_date).
  destruct (list_expenses_order sample "2024-01-01" "2024-12-31" dinner probe
              Hdinner Hprobe eq_refl eq_refl (or_introl eq_refl))
    as (out' & Hret' & _ & Hlater_date).
  exists out. split; [exact Hret|]. split; [exact Hsame_date|].
  rewrite Hret in Hret'. injection Hret' as <-. exact Hlater_date.
Defined.

(** ** Summaries *)


Lemma group_by_category_In (rows : list Expense.t) (g : Group.t) :
  In g (group_by_category rows) ->
  (exists r, In r rows /\ Expense.category r = Group.category g)
  /\ Group.total_amount g
     = sum_amount (filter (in_category (Group.category g)) rows)
  /\ Group.count g
     = count_rows (filter (in_category (Group.category g)) rows).
Proof.
  unfold group_by_category. rewrite in_map_iff.
  intros (c & <- & Hc). simpl. split; [|auto].
  apply nodup_In, in_map_iff in Hc. destruct Hc as (r & Hr & Hin).
  now exists r.
Qed.

Lemma filter_and {A : Type} (p q : A -> bool) (l : list A) :
  filter (fun x => p x && q x) l = filter q (filter p l).
Proof.
  induction l as [|x l IH]; simpl; [reflexivity|].
  destruct (p x); simpl; [|exact IH].
  destruct (q x); now rewrite IH.
Qed.



(** The rows [summarize] groups, by the shape of its category argument. *)
Lemma summarize_rows_unfiltered (db : database) (lo hi : string)
  (category : option string) :
  category = None \/ category = Some "" ->
  filter (summarize_where lo hi category) (expenses db) = in_range db lo hi.
Proof.
  intros [->| ->]; apply filter_ext; intros r; unfold summarize_where;
    simpl; apply andb_true_r.
Qed.

Lemma summarize_rows_filtered (db : database) (lo hi c : string) :
  c <> "" ->
  filter (summarize_where lo hi (Some c)) (expenses db)
  = filter (in_category c) (in_range db lo hi).
Proof.
  intros Hc. unfold in_range. rewrite <- filter_and.
  apply filter_ext. intros r. unfold summarize_where.
  destruct c; [congruence|reflexivity].
Qed.

Lemma summarize_returns (db : database) (lo hi : string)
  (category : option string) (gs : list Group.t) :
  summarize None db lo hi category
  = Return (summary (map dict_of_group gs)) ->
  gs = GroupSort.sort
         (group_by_category
            (filter (summarize_where lo hi category) (expenses db))).
Proof.
  unfold summarize, summary, select_summary. simpl. intros H.
  injection H as H. symmetry.
  exact (map_injective dict_of_group dict_of_group_inj _ _ H).
Qed.

Lemma summarize_groups (db : database) (lo hi : string)
  (category : option string) :
  summarize None db lo hi category
  = Return (summary
              (map dict_of_group
                   (select_summary db (summarize_where lo hi category)))).
Proof. reflexivity. Qed.

Lemma group_by_category_iff (rows : list Expense.t) (g : Group.t) :
  In g (group_by_category rows) <->
  (exists r, In r rows /\ Expense.category r = Group.category g)
  /\ g = Group.mk (Group.category g)
                  (sum_amount (filter (in_category (Group.category g)) rows))
                  (count_rows (filter (in_category (Group.category g)) rows)).
Proof.
  split.
  - intros Hg. apply group_by_category_In in Hg.
    destruct Hg as (Hr & Htotal & Hcount). split; [exact Hr|].
    destruct g as [c t n]. simpl in *. now subst.
  - intros ((r & Hr & Hcat) & Hg). rewrite Hg.
    unfold group_by_category.
    apply (in_map (fun c =>
                     Group.mk c (sum_amount (filter (in_category c) rows))
                              (count_rows (filter (in_category c) rows)))).
    apply nodup_In. rewrite <- Hcat. now apply in_map.
Qed.

Lemma in_select_summary (db : database) (cond : Expense.t -> bool)
  (g : Group.t) :
  In g (select_summary db cond) <->
  In g (group_by_category (filter cond (expenses db))).
Proof.
  unfold select_summary. split; intros H.
  - eapply Permutation_in; [|exact H].
    apply Permutation_sym, GroupSort.Permuted_sort.
  - eapply Permutation_in; [|exact H]. apply GroupSort.Permuted_sort.
Qed.

Lemma count_over_other (x : string) (cs : list string) :
  ~ In x cs -> count_over (fun c => if (x =? c)%string then 1 else 0) cs = 0.
Proof.
  induction cs as [|c cs IH]; simpl; intros Hnot; [reflexivity|].
  destruct (String.eqb_spec x c) as [->|Hne]; [tauto|].
  rewrite IH by tauto. reflexivity.
Qed.

Lemma count_over_one (x : string) (cs : list string) :
  NoDup cs -> In x cs ->
  count_over (fun c => if (x =? c)%string then 1 else 0) cs = 1.
Proof.
  induction 1 as [|c cs Hnot Hnodup IH]; simpl; [tauto|].
  intros Hin. destruct (String.eqb_spec x c) as [->|Hne].
  - now rewrite count_over_other.
  - destruct Hin as [Heq|Hin]; [congruence|]. now rewrite IH.
Qed.

Lemma count_over_plus (f g : string -> Z) (cs : list string) :
  count_over (fun c => f c + g c) cs = count_over f cs + count_over g cs.
Proof.
  induction cs as [|c cs IH]; simpl; [reflexivity|]. rewrite IH. lia.
Qed.

Lemma count_over_ext (f g : string -> Z) (cs : list string) :
  (forall c, f c = g c) -> count_over f cs = count_over g cs.
Proof.
  intros Hfg. induction cs as [|c cs IH]; simpl; [reflexivity|].
  now rewrite IH, Hfg.
Qed.

Lemma group_counts_sum (cs : list string) (rows : list Expense.t) :
  NoDup cs ->
  (forall r, In r rows -> In (Expense.category r) cs) ->
  count_over (fun c => count_rows (filter (in_category c) rows)) cs
  = count_rows rows.
Proof.
  intros Hnodup. induction rows as [|r rows IH]; intros Hcover.
  - cbn [filter]. induction cs as [|c cs IHcs]; simpl; [reflexivity|].
    inversion Hnodup; subst. now rewrite IHcs.
  - assert (Hstep : forall c,
               count_rows (filter (in_category c) (r :: rows))
               = (if (Expense.category r =? c)%string then 1 else 0)
                 + count_rows (filter (in_category c) rows)).
    { intros c. cbn [filter]. unfold in_category at 1.
      destruct (Expense.category r =? c)%string; unfold count_rows;
        cbn [List.length]; lia. }
    rewrite (count_over_ext _ _ cs Hstep), count_over_plus.
    rewrite (count_over_one _ _ Hnodup (Hcover r (or_introl eq_refl))).
    rewrite IH by (intros r' Hr'; apply Hcover; now right).
    unfold count_rows. cbn [List.length]. lia.
Qed.

Lemma sum_counts_Permutation (gs gs' : list Group.t) :
  Permutation gs gs' -> sum_counts gs = sum_counts gs'.
Proof.
  induction 1 as [|g l l' _ IH|g g' l|l l' l'' _ IH1 _ IH2]; simpl; lia.
Qed.

Lemma group_by_category_counts (rows : list Expense.t) :
  sum_counts (group_by_category rows) = count_rows rows.
Proof.
  unfold group_by_category.
  rewrite <- (group_counts_sum (nodup string_dec (map Expense.category rows))
                               rows).
  - induction (nodup string_dec (map Expense.category rows)) as [|c cs IH];
      simpl; [reflexivity|]. now rewrite IH.
  - apply NoDup_nodup.
  - intros r Hr. apply nodup_In, in_map, Hr.
Qed.




(** C10.  An empty-string category is no filter: the call returns what the
    call without a category returns, and that is not the group of the
    category [""] alone but a group for every category of the range: each
    stored expense of the range has a group with its category, which counts
    the stored expenses of that category in the range, and every group
    belongs to such an expense. *)
Theorem summarize_empty_category (fault : option exception) (db : database)
  (start_date end_date : string) :
  summarize fault db start_date end_date (Some "") =
  summarize fault db start_date end_date None
  /\ exists gs,
      summarize None db start_date end_date (Some "")
      = Return (VDict [("status", VStr "success");
                       ("summary", VList (map dict_of_group gs))])
      /\ (forall r,
            In r (expenses db) ->
            ((start_date <=? Expense.date r)
             && (Expense.date r <=? end_date))%string = true ->
            exists g,
              In g gs
              /\ Group.category g = Expense.category r
              /\ Group.count g
                 = Z.of_nat
                     (List.length
                        (filter
                           (fun r' =>
                              (Expense.category r' =? Expense.category r)%string)
                           (in_range db start_date end_date))))
      /\ (forall g,
            In g gs ->
            exists r,
              In r (expenses db)
              /\ ((start_date <=? Expense.date r)
                  && (Expense.date r <=? end_date))%string = true
              /\ Expense.category r = Group.category g).
Proof.
  split; [reflexivity|].
  exists (select_summary db (summarize_where start_date end_date (Some ""))).
  split; [apply summarize_groups|].
  assert (Hmem : forall g,
             In g (select_summary db
                     (summarize_where start_date end_date (Some ""))) <->
             In g (group_by_category (in_range db start_date end_date))).
  { intros g. rewrite in_select_summary.
    now rewrite (summarize_rows_unfiltered db _ _ (Some "")) by auto. }
  assert (Hrange : forall r,
             In r (in_range db start_date end_date) <->
             In r (expenses db)
             /\ ((start_date <=? Expense.date r)
                 && (Expense.date r <=? end_date))%string = true).
  { intros r. unfold in_range.
    apply (filter_In (fun r => between (Expense.date r) start_date end_date)). }
  split.
  - intros r Hin Hdate.
    exists (Group.mk (Expense.category r)
              (sum_amount
                 (filter (in_category (Expense.category r))
                         (in_range db start_date end_date)))
              (count_rows
                 (filter (in_category (Expense.category r))
                         (in_range db start_date end_date)))).
    split; [|split; reflexivity].
    apply Hmem, group_by_category_iff. split; [|reflexivity].
    exists r. split; [|reflexivity]. apply Hrange. auto.
  - intros g Hg. apply Hmem, group_by_category_iff in Hg.
    destruct Hg as ((r & Hr & Hcat) & _). apply Hrange in Hr.
    exists r. tauto.
Qed.

(** * Further properties of the code *)

(** ** Rowids *)

Lemma largest_ids_app (l : list Z) (x : Z) :
  fold_right Z.max 0 (l ++ [x]) = Z.max (fold_right Z.max 0 l) (Z.max x 0).
Proof.
  induction l as [|y l IH]; simpl; [lia|]. rewrite IH. lia.
Qed.

Lemma largest_ids_nonneg (l : list Z) : 0 <= fold_right Z.max 0 l.
Proof. induction l as [|y l IH]; simpl; lia. Qed.

Lemma largest_ids_filter (p : Expense.t -> bool) (rows : list Expense.t) :
  fold_right Z.max 0 (map Expense.id (filter p rows))
  <= fold_right Z.max 0 (map Expense.id rows).
Proof.
  induction rows as [|r rows IH]; simpl; [lia|].
  destruct (p r); simpl; lia.
Qed.

Lemma largest_rowid_nonneg_seq (db : database) :
  0 <= fold_right Z.max 0 (map Expense.id (expenses db)) <= largest_rowid db
  /\ sqlite_sequence db <= largest_rowid db.
Proof.
  unfold largest_rowid.
  pose proof (largest_ids_nonneg (map Expense.id (expenses db))). lia.
Qed.

Lemma init_db_success (fault : option exception) (store store' : option database) :
  init_db fault store = (Return tt, store') ->
  let db := match store with Some db => db | None => Sqlite.empty end in
  fault = None
  /\ largest_rowid db < MAX_ROWID
  /\ store' =
     Some {| expenses :=
               filter (fun r => negb (Expense.category r =? "test")%string)
                      (expenses db);
             sqlite_sequence := largest_rowid db + 1 |}.
Proof.
  unfold init_db, insert. destruct fault as [e|]; [discriminate|].
  set (db := match store with Some db => db | None => Sqlite.empty end).
  destruct (Z.leb_spec MAX_ROWID (largest_rowid db)) as [Hfull|Hroom];
    [discriminate|].
  intros Heq. injection Heq as <-. simpl. split; [reflexivity|].
  split; [lia|]. unfold delete_category. simpl.
  rewrite filter_app. simpl. now rewrite app_nil_r.
Qed.

Lemma filter_all {A : Type} (p : A -> bool) (l : list A) :
  (forall x, In x l -> p x = true) -> filter p l = l.
Proof.
  induction l as [|x l IH]; simpl; intros Hall; [reflexivity|].
  rewrite (Hall x) by now left. f_equal. apply IH. intros y Hy.
  apply Hall. now right.
Qed.

(** X1.  A start-up that succeeds on an existing table keeps, in their
    order, exactly the rows whose category is not "test"; a table without
    such rows keeps all its rows.  The write test uses up one id. *)
Theorem init_db_keeps_other_rows (fault : option exception)
  (db : database) (store' : option database) :
  init_db fault (Some db) = (Return tt, store') ->
  exists db',
    store' = Some db'
    /\ expenses db' =
       filter (fun r => negb (Expense.category r =? "test")%string)
              (expenses db)
    /\ (forall r, In r (expenses db') <->
                  In r (expenses db) /\ Expense.category r <> "test")
    /\ ((forall r, In r (expenses db) -> Expense.category r <> "test") ->
        expenses db' = expenses db)
    /\ sqlite_sequence db' = largest_rowid db + 1.
Proof.
  intros H. apply init_db_success in H. destruct H as (_ & _ & ->).
  eexists. split; [reflexivity|]. simpl. split; [reflexivity|].
  assert (Hmem : forall r,
             In r (filter (fun r => negb (Expense.category r =? "test")%string)
                          (expenses db)) <->
             In r (expenses db) /\ Expense.category r <> "test").
  { intros r. rewrite filter_In, negb_true_iff, String.eqb_neq. reflexivity. }
  split; [exact Hmem|]. split; [|reflexivity].
  intros Hnone. apply filter_all. intros r Hr.
  apply negb_true_iff, String.eqb_neq, Hnone, Hr.
Qed.

Lemma init_db_keeps_other_rows_witness :
  exists db',
    init_db None (Some sample) = (Return tt, Some db')
    /\ expenses db' = [lunch; taxi; dinner]
    /\ sqlite_sequence db' = 6.
Proof.
  destruct (init_db_keeps_other_rows None sample
              (Some {| expenses := [lunch; taxi; dinner];
                       sqlite_sequence := 6 |}) eq_refl)
    as (db' & Hstore & Hrows & _ & _ & Hseq).
  exists db'. split; [rewrite <- Hstore; reflexivity|].
  split; [rewrite Hrows | rewrite Hseq]; reflexivity.
Defined.

(** X2.  The write test of a successful start-up uses up one id: the first
    expense added afterwards gets an id two above the largest id the table
    had ever held, so the first expense of a fresh file has id 2. *)
Theorem first_id_after_init_db (fault : option exception)
  (store : option database) (db db1 : database)
  (date : string) (amount : Q) (category subcategory note : string)
  (rid : Z) :
  init_db None store = (Return tt, Some db) ->
  add_expense fault db date amount category subcategory note
  = (Return (added rid), db1) ->
  rid = match store with
        | Some db0 => largest_rowid db0 + 2
        | None => 2
        end.
Proof.
  intros Hinit Hadd. apply init_db_success in Hinit.
  destruct Hinit as (_ & _ & Hdb). injection Hdb as ->.
  apply add_expense_success in Hadd. destruct Hadd as [-> _].
  set (db0 := match store with Some db => db | None => Sqlite.empty end).
  assert (Hlargest :
            largest_rowid
              {| expenses :=
                   filter (fun r => negb (Expense.category r =? "test")%string)
                          (expenses db0);
                 sqlite_sequence := largest_rowid db0 + 1 |}
            = largest_rowid db0 + 1).
  { unfold largest_rowid at 1. simpl.
    pose proof (largest_ids_filter
                  (fun r => negb (Expense.category r =? "test")%string)
                  (expenses db0)).
    pose proof (largest_rowid_nonneg_seq db0). lia. }
  rewrite Hlargest. destruct store; subst db0; [lia|reflexivity].
Qed.

Lemma first_id_after_init_db_witness :
  init_db None None
  = (Return tt, Some {| expenses := []; sqlite_sequence := 1 |})
  /\ add_expense None {| expenses := []; sqlite_sequence := 1 |}
                 "2024-01-05" (85 # 2) "Food & Dining" "" "lunch"
     = (Return (added 2), {| expenses := [lunch]; sqlite_sequence := 2 |})
  /\ 2 = 2.
Proof.
  assert (H1 : init_db None None
               = (Return tt, Some {| expenses := []; sqlite_sequence := 1 |}))
    by reflexivity.
  assert (H2 : add_expense None {| expenses := []; sqlite_sequence := 1 |}
                           "2024-01-05" (85 # 2) "Food & Dining" "" "lunch"
               = (Return (added 2),
                  {| expenses := [lunch]; sqlite_sequence := 2 |}))
    by reflexivity.
  split; [exact H1|]. split; [exact H2|].
  exact (first_id_after_init_db None None _ _ _ _ _ _ _ 2 H1 H2).
Defined.

(** X4.  At the end of the rowid range the insert fails: [add_expense]
    answers with the operational-error envelope and leaves the table as it
    was, and a start-up on such a table raises. *)
Theorem full_table_is_reported (db : database)
  (date : string) (amount : Q) (category subcategory note : string) :
  MAX_ROWID <= largest_rowid db ->
  add_expense None db date amount category subcategory note
  = (Return (VDict [("status", VStr "error");
                    ("message",
                     VStr "Database operational error: database or disk is full")]),
     db)
  /\ init_db None (Some db)
     = (Raise (OperationalError "database or disk is full"), Some db).
Proof.
  intros Hfull. apply Z.leb_le in Hfull.
  unfold add_expense, init_db, driver, insert. rewrite Hfull. split; reflexivity.
Qed.

Lemma full_table_is_reported_witness :
  MAX_ROWID
  <= largest_rowid {| expenses := [lunch];
                      sqlite_sequence := 9223372036854775807 |}
  /\ add_expense None {| expenses := [lunch];
                         sqlite_sequence := 9223372036854775807 |}
                 "2024-03-01" 5 "Travel" "" ""
     = (Return (VDict [("status", VStr "error");
                       ("message",
                        VStr "Database operational error: database or disk is full")]),
        {| expenses := [lunch]; sqlite_sequence := 9223372036854775807 |}).
Proof.
  assert (H : MAX_ROWID
              <= largest_rowid {| expenses := [lunch];
                                  sqlite_sequence := 9223372036854775807 |})
    by (vm_compute; discriminate).
  split; [exact H|].
  apply (full_table_is_reported _ "2024-03-01" 5 "Travel" "" "" H).
Defined.

Lemma add_expense_largest (fault : option exception) (db : database)
  (date : string) (amount : Q) (category subcategory note : string) :
  largest_rowid db
  <= largest_rowid
       (snd (add_expense fault db date amount category subcategory note)).
Proof.
  unfold add_expense, driver, insert.
  destruct fault as [e|]; simpl; [lia|].
  destruct (MAX_ROWID <=? largest_rowid db); simpl; [lia|].
  unfold largest_rowid. cbn [expenses sqlite_sequence].
  rewrite map_app. cbn [map]. rewrite largest_ids_app. lia.
Qed.

Lemma later_largest (db1 db2 : database) :
  later db1 db2 -> largest_rowid db1 <= largest_rowid db2.
Proof.
  induction 1 as [|db db' fault d a c s n Hlater IH]; [lia|].
  pose proof (add_expense_largest fault db' d a c s n). lia.
Qed.

(** X5.  Ids grow from one successful [add_expense] to the next, whatever
    calls of [add_expense] lie between them. *)
Theorem add_expense_ids_grow (fault1 fault2 : option exception)
  (db db1 db2 db3 : database)
  (date1 date2 : string) (amount1 amount2 : Q)
  (category1 subcategory1 note1 category2 subcategory2 note2 : string)
  (rid1 rid2 : Z) :
  add_expense fault1 db date1 amount1 category1 subcategory1 note1
  = (Return (added rid1), db1) ->
  later db1 db2 ->
  add_expense fault2 db2 date2 amount2 category2 subcategory2 note2
  = (Return (added rid2), db3) ->
  rid1 < rid2.
Proof.
  intros H1 Hlater H2.
  apply add_expense_success in H1, H2.
  destruct H1 as [Hrid1 Hdb1], H2 as [Hrid2 _].
  apply later_largest in Hlater.
  assert (Hseq : rid1 <= largest_rowid db1).
  { rewrite Hdb1. unfold largest_rowid. simpl. lia. }
  lia.
Qed.

Lemma add_expense_ids_grow_witness :
  exists db1 db2 db3,
    add_expense None sample "2024-01-09" (7 # 2) "Travel" "bus" "to work"
    = (Return (added 6), db1)
    /\ later db1 db2
    /\ add_expense None db2 "2024-01-02" 1 "Food & Dining" "" ""
       = (Return (added 8), db3)
    /\ 6 < 8.
Proof.
  pose (db1 := snd (add_expense None sample "2024-01-09" (7 # 2) "Travel"
                                "bus" "to work")).
  pose (db2 := snd (add_expense None db1 "2024-01-10" 1 "Food & Dining"
                                "" "")).
  pose (db3 := snd (add_expense None db2 "2024-01-02" 1 "Food & Dining"
                                "" "")).
  assert (H1 : add_expense None sample "2024-01-09" (7 # 2) "Travel" "bus"
                           "to work" = (Return (added 6), db1))
    by reflexivity.
  assert (H2 : later db1 db2) by (apply later_add, later_now).
  assert (H3 : add_expense None db2 "2024-01-02" 1 "Food & Dining" "" ""
               = (Return (added 8), db3)) by reflexivity.
  exists db1, db2, db3.
  split; [exact H1|]. split; [exact H2|]. split; [exact H3|].
  exact (add_expense_ids_grow _ _ _ _ _ _ _ _ _ _ _ _ _ _ _ _ _ _
           H1 H2 H3).
Defined.

(** ** The ids of a reachable table *)

Lemma StronglySorted_app_one (l : list Z) (x : Z) :
  StronglySorted Z.lt l -> (forall y, In y l -> y < x) ->
  StronglySorted Z.lt (l ++ [x]).
Proof.
  induction 1 as [|y l Hsorted IH Hall]; intros Hbelow; simpl.
  - repeat constructor.
  - constructor.
    + apply IH. intros z Hz. apply Hbelow. now right.
    + apply Forall_app. split; [exact Hall|].
      constructor; [|constructor]. apply Hbelow. now left.
Qed.

Lemma StronglySorted_ids_filter (p : Expense.t -> bool)
  (rows : list Expense.t) :
  StronglySorted Z.lt (map Expense.id rows) ->
  StronglySorted Z.lt (map Expense.id (filter p rows)).
Proof.
  induction rows as [|r rows IH]; simpl; intros Hsorted; [constructor|].
  apply StronglySorted_inv in Hsorted. destruct Hsorted as [Hrest Hall].
  destruct (p r); simpl; [|auto]. constructor; [auto|].
  rewrite Forall_forall in *. intros y Hy. apply Hall.
  apply in_map_iff in Hy. destruct Hy as (r' & <- & Hr').
  apply in_map. apply filter_In in Hr'. tauto.
Qed.

Lemma insert_ids_increasing (db db' : database) (d : string) (a : Q)
  (c s n : string) (rid : Z) :
  ids_increasing db -> insert db d a c s n = Return (rid, db') ->
  ids_increasing db'.
Proof.
  unfold insert. intros [Hsorted Hbound].
  destruct (MAX_ROWID <=? largest_rowid db); [discriminate|].
  intros H. injection H as <- <-.
  pose proof (largest_rowid_nonneg_seq db) as Hlargest.
  split; simpl.
  - rewrite map_app. simpl. apply StronglySorted_app_one; [exact Hsorted|].
    intros y Hy. apply in_map_iff in Hy. destruct Hy as (r & <- & Hr).
    apply id_le_largest in Hr. lia.
  - intros r Hr. apply in_app_or in Hr. destruct Hr as [Hr|[<-|[]]].
    + specialize (Hbound r Hr). lia.
    + simpl. lia.
Qed.

Lemma delete_category_ids_increasing (db : database) (c : string) :
  ids_increasing db -> ids_increasing (delete_category db c).
Proof.
  intros [Hsorted Hbound]. split; simpl.
  - apply StronglySorted_ids_filter, Hsorted.
  - intros r Hr. apply filter_In in Hr. apply Hbound. tauto.
Qed.

Lemma empty_ids_increasing : ids_increasing Sqlite.empty.
Proof. split; simpl; [constructor|tauto]. Qed.

Lemma add_expense_ids_increasing (fault : option exception) (db : database)
  (date : string) (amount : Q) (category subcategory note : string) :
  ids_increasing db ->
  ids_increasing
    (snd (add_expense fault db date amount category subcategory note)).
Proof.
  intros Hdb. unfold add_expense, driver.
  destruct fault as [e|]; [exact Hdb|].
  destruct (insert db date amount category subcategory note)
    as [[rid db']|e] eqn:Hins; simpl; [|exact Hdb].
  exact (insert_ids_increasing _ _ _ _ _ _ _ _ Hdb Hins).
Qed.

Lemma init_db_ids_increasing (fault : option exception)
  (store : option database) (db' : database) :
  (forall db, store = Some db -> ids_increasing db) ->
  snd (init_db fault store) = Some db' -> ids_increasing db'.
Proof.
  intros Hstore. unfold init_db.
  assert (Hdb : ids_increasing
                  match store with Some db => db | None => Sqlite.empty end).
  { destruct store as [db|]; [auto|apply empty_ids_increasing]. }
  destruct fault as [e|]; simpl.
  - intros ->. auto.
  - destruct (insert _ "2000-01-01" 0%Q "test" "" "")
      as [[rid db1]|e] eqn:Hins; simpl; intros H; injection H as <-.
    + apply delete_category_ids_increasing.
      exact (insert_ids_increasing _ _ _ _ _ _ _ _ Hdb Hins).
    + exact Hdb.
Qed.

Lemma reachable_invariant (db : database) :
  reachable db -> ids_increasing db.
Proof.
  induction 1 as [fault db Hstart
                 |db fault d a c s n Hreach IH
                 |db fault db' Hreach IH Hrestart].
  - apply (init_db_ids_increasing fault None db); [discriminate|exact Hstart].
  - apply add_expense_ids_increasing, IH.
  - apply (init_db_ids_increasing fault (Some db) db'); [|exact Hrestart].
    intros db0 H. injection H as <-. exact IH.
Qed.

Lemma StronglySorted_lt_NoDup (l : list Z) :
  StronglySorted Z.lt l -> NoDup l.
Proof.
  induction 1 as [|x l Hsorted IH Hall]; constructor; [|exact IH].
  intros Hin. rewrite Forall_forall in Hall. specialize (Hall x Hin). lia.
Qed.

(** X6.  In every table the program can reach, the ids grow along the
    table, so no two rows share an id; each id is positive and none is
    above the AUTOINCREMENT counter. *)
Theorem reachable_ids_increasing (db : database) :
  reachable db ->
  StronglySorted Z.lt (map Expense.id (expenses db))
  /\ NoDup (map Expense.id (expenses db))
  /\ forall r, In r (expenses db) ->
       0 < Expense.id r <= sqlite_sequence db.
Proof.
  intros Hreach. apply reachable_invariant in Hreach.
  destruct Hreach as [Hsorted Hbound]. split; [exact Hsorted|].
  split; [|exact Hbound]. apply StronglySorted_lt_NoDup, Hsorted.
Qed.

Lemma reachable_ids_increasing_witness :
  reachable
    (snd (add_expense None {| expenses := []; sqlite_sequence := 1 |}
                      "2024-01-05" (85 # 2) "Food & Dining" "" "lunch"))
  /\ NoDup (map Expense.id [lunch]).
Proof.
  assert (H : reachable
                (snd (add_expense None
                        {| expenses := []; sqlite_sequence := 1 |}
                        "2024-01-05" (85 # 2) "Food & Dining" "" "lunch"))).
  { apply reach_add. apply (reach_start None). reflexivity. }
  split; [exact H|].
  exact (proj1 (proj2 (reachable_ids_increasing _ H))).
Defined.

(** ** More on listings *)

Lemma string_leb_trans (s1 s2 s3 : string) :
  (s1 <=? s2)%string = true -> (s2 <=? s3)%string = true ->
  (s1 <=? s3)%string = true.
Proof.
  unfold String.leb.
  destruct (s1 ?= s2)%string eqn:H12; try discriminate;
    destruct (s2 ?= s3)%string eqn:H23; try discriminate; intros _ _.
  - apply String.compare_eq_iff in H12, H23. subst.
    now rewrite string_compare_refl.
  - apply String.compare_eq_iff in H12. subst. now rewrite H23.
  - apply String.compare_eq_iff in H23. subst. now rewrite H12.
  - now rewrite (string_compare_lt_trans _ _ _ H12 H23).
Qed.

Lemma filter_none {A : Type} (p : A -> bool) (l : list A) :
  (forall x, In x l -> p x = false) -> filter p l = [].
Proof.
  induction l as [|x l IH]; simpl; intros Hnone; [reflexivity|].
  rewrite (Hnone x) by now left. apply IH. intros y Hy.
  apply Hnone. now right.
Qed.

Lemma select_range_none (db : database) (lo hi : string) :
  (forall r, In r (expenses db) -> between (Expense.date r) lo hi = false) ->
  select_range db lo hi = [].
Proof.
  intros Hnone. unfold select_range.
  rewrite (filter_none (fun r => between (Expense.date r) lo hi) _ Hnone).
  reflexivity.
Qed.

Lemma select_summary_none (db : database) (cond : Expense.t -> bool) :
  (forall r, In r (expenses db) -> cond r = false) ->
  select_summary db cond = [].
Proof.
  intros Hnone. unfold select_summary.
  rewrite (filter_none cond _ Hnone). reflexivity.
Qed.

Lemma no_match_is_success (db : database) (lo hi : string)
  (category : option string) :
  (forall r, In r (expenses db) -> between (Expense.date r) lo hi = false) ->
  list_expenses None db lo hi = Return (listing [])
  /\ summarize None db lo hi category = Return (summary []).
Proof.
  intros Hnone. split.
  - rewrite list_expenses_returns, (select_range_none _ _ _ Hnone).
    reflexivity.
  - unfold summarize, driver. rewrite select_summary_none; [reflexivity|].
    intros r Hr. unfold summarize_where. now rewrite (Hnone r Hr).
Qed.

(** X7.  A listing is a rearrangement of the stored expenses of the range:
    each of them is shown as often as it is stored and nothing else is
    shown. *)
Theorem list_expenses_rearranges (db : database)
  (start_date end_date : string) :
  exists out,
    list_expenses None db start_date end_date
    = Return (VDict [("status", VStr "success"); ("expenses", VList out)])
    /\ Permutation
         (map dict_of_expense
              (filter (fun r =>
                         ((start_date <=? Expense.date r)
                          && (Expense.date r <=? end_date))%string)
                      (expenses db)))
         out
    /\ List.length out
       = List.length
           (filter (fun r =>
                      ((start_date <=? Expense.date r)
                       && (Expense.date r <=? end_date))%string)
                   (expenses db)).
Proof.
  eexists. split; [apply list_expenses_returns|].
  assert (Hperm : Permutation
                    (map dict_of_expense (in_range db start_date end_date))
                    (map dict_of_expense
                         (select_range db start_date end_date))).
  { apply Permutation_map. unfold select_range, in_range.
    apply RowSort.Permuted_sort. }
  split; [exact Hperm|].
  rewrite <- (Permutation_length Hperm). apply length_map.
Qed.

(** X8.  When no stored expense has its date in the range, and so on an
    empty table, both queries succeed with an empty list. *)
Theorem empty_range_is_success (db : database)
  (start_date end_date : string) (category : option string) :
  (forall r, In r (expenses db) ->
             ((start_date <=? Expense.date r)
              && (Expense.date r <=? end_date))%string = false) ->
  list_expenses None db start_date end_date
  = Return (VDict [("status", VStr "success"); ("expenses", VList [])])
  /\ summarize None db start_date end_date category
     = Return (VDict [("status", VStr "success"); ("summary", VList [])]).
Proof.
  intros Hnone. exact (no_match_is_success db _ _ category Hnone).
Qed.

Lemma empty_range_is_success_witness :
  (forall r, In r (expenses sample) ->
             (("2025-01-01" <=? Expense.date r)
              && (Expense.date r <=? "2025-12-31"))%string = false)
  /\ list_expenses None sample "2025-01-01" "2025-12-31"
     = Return (listing [])
  /\ summarize None sample "2025-01-01" "2025-12-31" (Some "Travel")
     = Return (summary []).
Proof.
  assert (H : forall r, In r (expenses sample) ->
                (("2025-01-01" <=? Expense.date r)
                 && (Expense.date r <=? "2025-12-31"))%string = false).
  { intros r [<-|[<-|[<-|[<-|[]]]]]; reflexivity. }
  split; [exact H|].
  exact (empty_range_is_success sample "2025-01-01" "2025-12-31"
           (Some "Travel") H).
Defined.

(** X9.  A range whose end is bytewise below its start matches nothing:
    both queries succeed with an empty list on every table. *)
Theorem inverted_range_is_empty (db : database)
  (start_date end_date : string) (category : option string) :
  (end_date <? start_date)%string = true ->
  list_expenses None db start_date end_date
  = Return (VDict [("status", VStr "success"); ("expenses", VList [])])
  /\ summarize None db start_date end_date category
     = Return (VDict [("status", VStr "success"); ("summary", VList [])]).
Proof.
  intros Hinv.
  assert (Hnone : forall r, In r (expenses db) ->
                    ((start_date <=? Expense.date r)
                     && (Expense.date r <=? end_date))%string = false).
  { intros r _. apply string_ltb_not_leb in Hinv.
    destruct (start_date <=? Expense.date r)%string eqn:Hlo; [|reflexivity].
    destruct (Expense.date r <=? end_date)%string eqn:Hhi; [|reflexivity].
    rewrite (string_leb_trans _ _ _ Hlo Hhi) in Hinv. discriminate. }
  exact (no_match_is_success db _ _ category Hnone).
Qed.

Lemma inverted_range_is_empty_witness :
  ("2024-01-01" <? "2024-12-31")%string = true
  /\ list_expenses None sample "2024-12-31" "2024-01-01"
     = Return (listing []).
Proof.
  split; [reflexivity|].
  exact (proj1 (inverted_range_is_empty sample "2024-12-31" "2024-01-01"
                  None eq_refl)).
Defined.

(** X10.  Widening the range never loses a record: with a start that is
    not later and an end that is not earlier, every record of the narrow
    listing is in the wide one. *)
Theorem wider_range_lists_more (db : database)
  (start_date end_date start_date' end_date' : string)
  (out out' : list value) :
  (start_date' <=? start_date)%string = true ->
  (end_date <=? end_date')%string = true ->
  list_expenses None db start_date end_date
  = Return (VDict [("status", VStr "success"); ("expenses", VList out)]) ->
  list_expenses None db start_date' end_date'
  = Return (VDict [("status", VStr "success"); ("expenses", VList out')]) ->
  forall v, In v out -> In v out'.
Proof.
  intros Hlo Hhi Hout Hout' v Hv.
  rewrite list_expenses_returns in Hout, Hout'.
  injection Hout as <-. injection Hout' as <-.
  apply in_map_iff in Hv. destruct Hv as (r & <- & Hr).
  apply in_map. apply in_select_range in Hr. apply in_select_range.
  destruct Hr as [Hin Hbetween]. split; [exact Hin|].
  unfold between in *. apply andb_true_iff in Hbetween.
  destruct Hbetween as [H1 H2]. apply andb_true_iff. split.
  - exact (string_leb_trans _ _ _ Hlo H1).
  - exact (string_leb_trans _ _ _ H2 Hhi).
Qed.

Lemma wider_range_lists_more_witness :
  In (dict_of_expense probe)
     (map dict_of_expense [dinner; probe; taxi; lunch]).
Proof.
  apply (wider_range_lists_more sample "2024-01-10" "2024-01-31"
           "2024-01-01" "2024-12-31"
           (map dict_of_expense [probe])
           (map dict_of_expense [dinner; probe; taxi; lunch])
           eq_refl eq_refl eq_refl eq_refl).
  simpl. auto.
Defined.

(** X11.  After a successful restart a listing shows exactly the records
    it showed before, less those whose category is "test". *)
Theorem listing_after_restart (db db' : database)
  (start_date end_date : string) (out out' : list value) :
  init_db None (Some db) = (Return tt, Some db') ->
  list_expenses None db start_date end_date
  = Return (VDict [("status", VStr "success"); ("expenses", VList out)]) ->
  list_expenses None db' start_date end_date
  = Return (VDict [("status", VStr "success"); ("expenses", VList out')]) ->
  forall r,
    In (dict_of_expense r) out' <->
    In (dict_of_expense r) out /\ Expense.category r <> "test".
Proof.
  intros Hinit Hout Hout' r.
  rewrite list_expenses_returns in Hout, Hout'.
  injection Hout as <-. injection Hout' as <-.
  apply init_db_rows in Hinit. destruct Hinit as (db0 & Hdb0 & Hrows).
  injection Hdb0 as <-.
  rewrite !in_map_dict_of_expense, !in_select_range, Hrows.
  rewrite filter_In, negb_true_iff, String.eqb_neq. tauto.
Qed.

Lemma listing_after_restart_witness :
  In (dict_of_expense lunch) (map dict_of_expense [taxi; lunch])
  <-> In (dict_of_expense lunch) (map dict_of_expense [probe; taxi; lunch])
      /\ Expense.category lunch <> "test".
Proof.
  apply (listing_after_restart sample
           {| expenses := [lunch; taxi; dinner]; sqlite_sequence := 6 |}
           "2024-01-01" "2024-01-31"
           (map dict_of_expense [probe; taxi; lunch])
           (map dict_of_expense [taxi; lunch])
           eq_refl eq_refl eq_refl).
Defined.

Lemma NoDup_map_injective {A B : Type} (f : A -> B) (l : list A) :
  (forall x y, f x = f y -> x = y) -> NoDup l -> NoDup (map f l).
Proof.
  intros Hf. induction 1 as [|x l Hnot Hnodup IH]; simpl; constructor.
  - intros Hin. apply in_map_iff in Hin. destruct Hin as (y & Hxy & Hy).
    apply Hf in Hxy. now subst.
  - exact IH.
Qed.

Lemma select_range_ids_NoDup (db : database) (lo hi : string) :
  reachable db -> NoDup (map Expense.id (select_range db lo hi)).
Proof.
  intros Hreach. apply reachable_invariant in Hreach.
  destruct Hreach as [Hsorted _]. apply StronglySorted_lt_NoDup in Hsorted.
  assert (Hfiltered : NoDup (map Expense.id (in_range db lo hi))).
  { unfold in_range. clear -Hsorted.
    induction (expenses db) as [|r rows IH]; simpl; [constructor|].
    inversion Hsorted as [|? ? Hnot Hrest]; subst.
    destruct (between (Expense.date r) lo hi); simpl; [|auto].
    constructor; [|auto]. intros Hin. apply Hnot.
    apply in_map_iff in Hin. destruct Hin as (r' & Hid & Hr').
    apply in_map_iff. exists r'. apply filter_In in Hr'. tauto. }
  apply (Permutation_NoDup (l := map Expense.id (in_range db lo hi)));
    [|exact Hfiltered].
  apply Permutation_map. unfold select_range, in_range.
  apply RowSort.Permuted_sort.
Qed.

(** X12.  On every table the program can reach, a listing shows no record
    twice and is strictly ordered: of any two of its records the earlier
    one has the bytewise greater date, or the same date and the greater
    id. *)
Theorem reachable_listing_strict (db : database)
  (start_date end_date : string) :
  reachable db ->
  exists rows,
    list_expenses None db start_date end_date
    = Return (VDict [("status", VStr "success");
                     ("expenses", VList (map dict_of_expense rows))])
    /\ NoDup (map dict_of_expense rows)
    /\ forall i j r1 r2,
        (i < j)%nat ->
        nth_error rows i = Some r1 -> nth_error rows j = Some r2 ->
        (Expense.date r2 <? Expense.date r1)%string = true
        \/ (Expense.date r1 = Expense.date r2
            /\ Expense.id r2 < Expense.id r1).
Proof.
  intros Hreach. exists (select_range db start_date end_date).
  pose proof (select_range_ids_NoDup db start_date end_date Hreach) as Hids.
  split; [apply list_expenses_returns|]. split.
  - apply NoDup_map_injective; [exact dict_of_expense_inj|].
    exact (NoDup_map_inv _ _ Hids).
  - intros i j r1 r2 Hij Hi Hj.
    pose proof (RowSort.StronglySorted_sort
                  (filter (fun r => between (Expense.date r)
                                            start_date end_date)
                          (expenses db))
                  date_id_desc_trans) as Hsorted.
    fold (select_range db start_date end_date) in Hsorted.
    pose proof (StronglySorted_nth_error _ _ Hsorted i j r1 r2 Hij Hi Hj)
      as Hbefore.
    unfold is_true in Hbefore. simpl in Hbefore.
    unfold DateIdDesc.leb, date_id_desc in Hbefore.
    destruct (Expense.date r1 ?= Expense.date r2)%string eqn:Hcmp;
      [|discriminate|].
    + right. split; [now apply String.compare_eq_iff|].
      apply Z.leb_le in Hbefore.
      assert (Hne : Expense.id r1 <> Expense.id r2).
      { intros Heq.
        assert (Hsame : i = j).
        { apply (proj1 (NoDup_nth_error _) Hids).
          - rewrite length_map. apply nth_error_Some. congruence.
          - rewrite !nth_error_map, Hi, Hj. simpl. now rewrite Heq. }
        lia. }
      lia.
    + left. unfold String.ltb.
      now rewrite (proj1 (string_compare_gt_lt _ _) Hcmp).
Qed.

Lemma reachable_listing_strict_witness :
  reachable
    (snd (add_expense None {| expenses := []; sqlite_sequence := 1 |}
                      "2024-01-05" (85 # 2) "Food & Dining" "" "lunch"))
  /\ exists rows,
      list_expenses None
        (snd (add_expense None {| expenses := []; sqlite_sequence := 1 |}
                          "2024-01-05" (85 # 2) "Food & Dining" "" "lunch"))
        "2024-01-01" "2024-01-31"
      = Return (listing (map dict_of_expense rows))
      /\ NoDup (map dict_of_expense rows).
Proof.
  assert (H : reachable
                (snd (add_expense None
                        {| expenses := []; sqlite_sequence := 1 |}
                        "2024-01-05" (85 # 2) "Food & Dining" "" "lunch"))).
  { apply reach_add. apply (reach_start None). reflexivity. }
  split; [exact H|].
  destruct (reachable_listing_strict _ "2024-01-01" "2024-01-31" H)
    as (rows & Hret & Hnodup & _).
  exists rows. split; [exact Hret | exact Hnodup].
Defined.

(** ** More on summaries *)

Lemma total_desc_trans : Transitive (fun g1 g2 => is_true (total_desc g1 g2)).
Proof.
  intros g1 g2 g3. unfold is_true, total_desc. rewrite !Qle_bool_iff.
  intros H12 H23. exact (Qle_trans _ _ _ H23 H12).
Qed.

(** X13.  The groups of a summary come in the order of their totals, the
    largest first. *)
Theorem summarize_sorted_by_total (db : database)
  (start_date end_date : string) (category : option string) :
  exists gs,
    summarize None db start_date end_date category
    = Return (VDict [("status", VStr "success");
                     ("summary", VList (map dict_of_group gs))])
    /\ forall i j g1 g2,
        (i < j)%nat ->
        nth_error gs i = Some g1 -> nth_error gs j = Some g2 ->
        (Group.total_amount g2 <= Group.total_amount g1)%Q.
Proof.
  eexists. split; [apply summarize_groups|].
  intros i j g1 g2 Hij Hi Hj.
  pose proof (GroupSort.StronglySorted_sort
                (group_by_category
                   (filter (summarize_where start_date end_date category)
                           (expenses db)))
                total_desc_trans) as Hsorted.
  pose proof (StronglySorted_nth_error _ _ Hsorted i j g1 g2 Hij Hi Hj)
    as Hbefore.
  apply Qle_bool_iff. exact Hbefore.
Qed.

Lemma NoDup_map_unique {A B : Type} (f : A -> B) (l : list A) (x y : A) :
  NoDup (map f l) -> In x l -> In y l -> f x = f y -> x = y.
Proof.
  induction l as [|z l IH]; simpl; intros Hnodup Hx Hy Hxy; [tauto|].
  inversion Hnodup as [|? ? Hnot Hrest]; subst.
  destruct Hx as [->|Hx], Hy as [->|Hy]; auto.
  - exfalso. apply Hnot. rewrite Hxy. now apply in_map.
  - exfalso. apply Hnot. rewrite <- Hxy. now apply in_map.
Qed.

(** X14.  Without a category, or with the empty string, every stored
    expense of the range is counted in exactly one group of the summary, the
    one that carries its category. *)
Theorem summarize_covers_categories (db : database)
  (start_date end_date : string) (category : option string)
  (gs : list Group.t) (r : Expense.t) :
  category = None \/ category = Some "" ->
  summarize None db start_date end_date category
  = Return (VDict [("status", VStr "success");
                   ("summary", VList (map dict_of_group gs))]) ->
  In r (expenses db) ->
  ((start_date <=? Expense.date r)
   && (Expense.date r <=? end_date))%string = true ->
  exists g,
    In g gs
    /\ Group.category g = Expense.category r
    /\ forall g', In g' gs -> Group.category g' = Expense.category r ->
                  g' = g.
Proof.
  intros Hnone Hret Hin Hrange. apply summarize_returns in Hret.
  rewrite (summarize_rows_unfiltered db _ _ _ Hnone) in Hret.
  set (rows := in_range db start_date end_date) in Hret.
  assert (Hr : In r rows).
  { unfold rows, in_range.
    apply (filter_In (fun r => between (Expense.date r) start_date end_date)).
    split; [exact Hin | exact Hrange]. }
  assert (Hperm : Permutation (group_by_category rows) gs)
    by (rewrite Hret; apply GroupSort.Permuted_sort).
  set (c := Expense.category r).
  exists (Group.mk c (sum_amount (filter (in_category c) rows))
                   (count_rows (filter (in_category c) rows))).
  split; [|split; [reflexivity|]].
  - apply (Permutation_in _ Hperm). apply group_by_category_iff.
    split; [|reflexivity]. now exists r.
  - intros g' Hg' Hcat.
    apply (Permutation_in _ (Permutation_sym Hperm)) in Hg'.
    apply group_by_category_iff in Hg'. destruct Hg' as [_ Hg'].
    rewrite Hg', Hcat. reflexivity.
Qed.

Lemma summarize_covers_categories_witness :
  exists g,
    In g [Group.mk "Food & Dining" (85 # 2) 1; Group.mk "Travel" 30 1;
          Group.mk "test" 12 1]
    /\ Group.category g = Expense.category taxi.
Proof.
  destruct (summarize_covers_categories sample "2024-01-01" "2024-01-31" None
              [Group.mk "Food & Dining" (85 # 2) 1; Group.mk "Travel" 30 1;
               Group.mk "test" 12 1]
              taxi (or_introl eq_refl) eq_refl
              (or_intror (or_intror (or_introl eq_refl))) eq_refl)
    as (g & Hg & Hcat & _).
  exists g. split; [exact Hg | exact Hcat].
Defined.

Lemma nodup_all_equal (c : string) (l : list string) :
  l <> [] -> (forall x, In x l -> x = c) -> nodup string_dec l = [c].
Proof.
  induction l as [|x l IH]; intros Hne Hall; [congruence|].
  simpl. assert (Hx : x = c) by (apply Hall; now left). subst x.
  destruct l as [|y l].
  - simpl. reflexivity.
  - destruct (in_dec string_dec c (y :: l)) as [_|Hnot].
    + apply IH; [discriminate|]. intros z Hz. apply Hall. now right.
    + exfalso. apply Hnot. left. apply Hall. right. now left.
Qed.

Lemma group_by_category_single (c : string) (rows : list Expense.t) :
  rows <> [] -> (forall r, In r rows -> Expense.category r = c) ->
  group_by_category rows
  = [Group.mk c (sum_amount rows) (count_rows rows)].
Proof.
  intros Hne Hall. unfold group_by_category.
  assert (Hlabels : nodup string_dec (map Expense.category rows) = [c]).
  { apply nodup_all_equal.
    - destruct rows; [congruence|discriminate].
    - intros x Hx. apply in_map_iff in Hx. destruct Hx as (r & <- & Hr).
      auto. }
  rewrite Hlabels. cbn [map].
  assert (Hsame : filter (in_category c) rows = rows).
  { apply filter_all. intros r Hr. unfold in_category.
    apply String.eqb_eq. auto. }
  now rewrite Hsame.
Qed.

(** X15.  With a non-empty category the summary is empty when the range
    holds no expense of that category, and otherwise it is one group with
    that label and the number of those expenses as its count. *)
Theorem summarize_one_category (db : database)
  (start_date end_date c : string) :
  c <> "" ->
  match filter (fun r => (Expense.category r =? c)%string)
               (in_range db start_date end_date) with
  | [] =>
    summarize None db start_date end_date (Some c)
    = Return (VDict [("status", VStr "success"); ("summary", VList [])])
  | r :: members =>
    exists total,
      summarize None db start_date end_date (Some c)
      = Return
          (VDict
             [("status", VStr "success");
              ("summary",
               VList
                 [VDict [("category", VStr c);
                         ("total_amount", VReal total);
                         ("count",
                          VInt (Z.of_nat (List.length (r :: members))))]])])
  end.
Proof.
  intros Hc. rewrite summarize_groups. unfold select_summary.
  rewrite (summarize_rows_filtered db _ _ c Hc).
  fold (in_category c).
  remember (filter (in_category c) (in_range db start_date end_date))
    as members eqn:Hmembers.
  assert (Hall : forall r, In r members -> Expense.category r = c).
  { intros r Hr. rewrite Hmembers in Hr. apply filter_In in Hr.
    destruct Hr as [_ Hr]. now apply String.eqb_eq. }
  clear Hmembers. destruct members as [|r rest]; [reflexivity|].
  exists (sum_amount (r :: rest)).
  rewrite (group_by_category_single c (r :: rest));
    [reflexivity | discriminate | exact Hall].
Qed.

Lemma summarize_one_category_witness :
  "Food & Dining" <> ""
  /\ exists total,
      summarize None sample "2024-01-01" "2024-12-31" (Some "Food & Dining")
      = Return (summary
                  [VDict [("category", VStr "Food & Dining");
                          ("total_amount", VReal total);
                          ("count", VInt 2)]]).
Proof.
  assert (H : "Food & Dining" <> "") by discriminate.
  split; [exact H|].
  exact (summarize_one_category sample "2024-01-01" "2024-12-31"
           "Food & Dining" H).
Defined.

Lemma in_range_after_add (fault : option exception) (db db1 : database)
  (date : string) (amount : Q) (category subcategory note : string)
  (rid : Z) (lo hi : string) :
  add_expense fault db date amount category subcategory note
  = (Return (added rid), db1) ->
  between date lo hi = true ->
  in_range db1 lo hi
  = (in_range db lo hi
     ++ [Expense.mk rid date amount category subcategory note])%list.
Proof.
  intros Hadd Hrange. apply add_expense_success in Hadd.
  destruct Hadd as [_ ->]. unfold in_range. simpl.
  rewrite filter_app. simpl. now rewrite Hrange.
Qed.

(** X16.  Adding an expense whose date lies in a range changes the
    summary of that range in one group only: the group of its category then
    counts one expense more than the range held of that category; every
    group of another category is as it was. *)
Theorem add_expense_then_summarize (fault : option exception)
  (db db1 : database) (date : string) (amount : Q)
  (category subcategory note : string) (rid : Z)
  (start_date end_date : string) (gs gs1 : list Group.t) :
  add_expense fault db date amount category subcategory note
  = (Return (added rid), db1) ->
  ((start_date <=? date) && (date <=? end_date))%string = true ->
  summarize None db start_date end_date None
  = Return (summary (map dict_of_group gs)) ->
  summarize None db1 start_date end_date None
  = Return (summary (map dict_of_group gs1)) ->
  (exists g1,
      In g1 gs1
      /\ Group.category g1 = category
      /\ Group.count g1
         = Z.of_nat
             (List.length
                (filter (fun r => (Expense.category r =? category)%string)
                        (in_range db start_date end_date)))
           + 1)
  /\ forall g, Group.category g <> category -> (In g gs1 <-> In g gs).
Proof.
  intros Hadd Hrange Hgs Hgs1.
  apply summarize_returns in Hgs, Hgs1.
  rewrite (summarize_rows_unfiltered db _ _ None) in Hgs by auto.
  rewrite (summarize_rows_unfiltered db1 _ _ None) in Hgs1 by auto.
  rewrite (in_range_after_add _ _ _ _ _ _ _ _ _ _ _ Hadd Hrange) in Hgs1.
  set (rows := in_range db start_date end_date) in *.
  set (new := Expense.mk rid date amount category subcategory note) in *.
  assert (Hmem : forall g, In g gs <-> In g (group_by_category rows)).
  { intros g. rewrite Hgs. split; intros H.
    - exact (Permutation_in g (Permutation_sym (GroupSort.Permuted_sort _)) H).
    - exact (Permutation_in g (GroupSort.Permuted_sort _) H). }
  assert (Hmem1 : forall g,
             In g gs1 <-> In g (group_by_category (rows ++ [new])%list)).
  { intros g. rewrite Hgs1. split; intros H.
    - exact (Permutation_in g (Permutation_sym (GroupSort.Permuted_sort _)) H).
    - exact (Permutation_in g (GroupSort.Permuted_sort _) H). }
  split.
  - exists (Group.mk category
              (sum_amount (filter (in_category category) (rows ++ [new])%list))
              (count_rows (filter (in_category category) (rows ++ [new])%list))).
    split; [|split; [reflexivity|]].
    + apply Hmem1, group_by_category_iff. cbn [Group.category].
      split; [|reflexivity].
      exists new. split; [apply in_or_app; right; now left|reflexivity].
    + cbn [Group.count]. rewrite filter_app. cbn [filter].
      unfold in_category at 2. cbn [Expense.category new].
      rewrite String.eqb_refl. fold (in_category category).
      unfold count_rows. rewrite length_app, Nat2Z.inj_add. reflexivity.
  - intros g Hother. rewrite Hmem, Hmem1, !group_by_category_iff.
    assert (Hfilter : filter (in_category (Group.category g))
                             (rows ++ [new])%list
                      = filter (in_category (Group.category g)) rows).
    { rewrite filter_app. cbn [filter]. unfold in_category at 2.
      cbn [Expense.category new].
      destruct (String.eqb_spec category (Group.category g)) as [Heq|_];
        [congruence|apply app_nil_r]. }
    rewrite Hfilter. split; intros ((r & Hr & Hcat) & Hg); (split; [|exact Hg]).
    + apply in_app_or in Hr. destruct Hr as [Hr|[<-|[]]]; [now exists r|].
      simpl in Hcat. congruence.
    + exists r. split; [apply in_or_app; now left|exact Hcat].
Qed.

Lemma add_expense_then_summarize_witness :
  exists gs1 g1,
    summarize None
      (snd (add_expense None sample "2024-01-09" (7 # 2) "Travel" "bus"
                        "to work"))
      "2024-01-01" "2024-01-31" None
    = Return (summary (map dict_of_group gs1))
    /\ In g1 gs1
    /\ Group.category g1 = "Travel"
    /\ Group.count g1 = 2.
Proof.
  pose (gs1 := select_summary
                 (snd (add_expense None sample "2024-01-09" (7 # 2) "Travel"
                                   "bus" "to work"))
                 (summarize_where "2024-01-01" "2024-01-31" None)).
  destruct (add_expense_then_summarize None sample
              (snd (add_expense None sample "2024-01-09" (7 # 2) "Travel"
                                "bus" "to work"))
              "2024-01-09" (7 # 2) "Travel" "bus" "to work" 6
              "2024-01-01" "2024-01-31"
              [Group.mk "Food & Dining" (85 # 2) 1; Group.mk "Travel" 30 1;
               Group.mk "test" 12 1]
              gs1 eq_refl eq_refl eq_refl eq_refl)
    as ((g1 & Hin & Hcat & Hcount) & _).
  exists gs1, g1. split; [reflexivity|]. auto.
Defined.

(** ** The text the resource returns *)

Lemma byte_chr (n : Z) :
  0 <= n < 256 -> Utf8.byte (ascii_of_N (Z.to_N n)) = n.
Proof.
  intros Hn. unfold Utf8.byte. rewrite N_ascii_embedding.
  - apply Z2N.id. lia.
  - change 256%N with (Z.to_N 256). apply Z2N.inj_lt; lia.
Qed.

Lemma all_chars_app (p : ascii -> bool) (s1 s2 : string) :
  all_chars p (s1 ++ s2) = all_chars p s1 && all_chars p s2.
Proof.
  induction s1 as [|c s1 IH]; simpl; [reflexivity|].
  now rewrite IH, andb_assoc.
Qed.

Lemma chr_printable (n : Z) :
  32 <= n <= 126 -> all_chars printable (Json.chr n) = true.
Proof.
  intros Hn. unfold Json.chr, printable. simpl.
  rewrite byte_chr by lia. rewrite andb_true_r.
  apply andb_true_iff. split; apply Z.leb_le; lia.
Qed.

Lemma hex_digit_printable (d : Z) :
  0 <= d < 16 -> all_chars printable (Json.hex_digit d) = true.
Proof.
  intros Hd. unfold Json.hex_digit.
  destruct (Z.ltb_spec d 10); apply chr_printable; lia.
Qed.

Lemma hex4_printable (n : Z) : all_chars printable (Json.hex4 n) = true.
Proof.
  unfold Json.hex4. rewrite !all_chars_app.
  rewrite !hex_digit_printable; [reflexivity| | | |];
    apply Z.mod_pos_bound; lia.
Qed.

Lemma escape_printable (cp : Z) : all_chars printable (Json.escape cp) = true.
Proof.
  unfold Json.escape.
  repeat match goal with
         | |- context [if ?b then _ else _] => destruct b eqn:?
         end;
    rewrite ?all_chars_app, ?hex4_printable; try reflexivity.
  apply chr_printable.
  match goal with
  | H : (_ && _) = true |- _ => apply andb_true_iff in H; destruct H
  end.
  lia.
Qed.

Lemma concat_printable (l : list string) :
  (forall s, In s l -> all_chars printable s = true) ->
  all_chars printable (String.concat "" l) = true.
Proof.
  induction l as [|s l IH]; intros Hall; [reflexivity|].
  simpl. destruct l as [|s' l].
  - apply Hall. now left.
  - rewrite all_chars_app, (Hall s) by now left. simpl.
    apply IH. intros x Hx. apply Hall. now right.
Qed.

Lemma encode_basestring_ascii_printable (s : string) :
  all_chars printable (Json.encode_basestring_ascii s) = true.
Proof.
  unfold Json.encode_basestring_ascii. rewrite !all_chars_app.
  rewrite concat_printable; [reflexivity|].
  intros x Hx. apply in_map_iff in Hx. destruct Hx as (cp & <- & _).
  apply escape_printable.
Qed.

(** X17.  The resource raises only what [open] raises outside
    [Exception].  In every other case it returns a text, and the text is
    plain ASCII whatever the file holds and whatever the text of the
    exception: printable characters, and line feeds in the built-in
    document. *)
Theorem categories_returns_ascii (path : path_state) :
  (forall e, path = Present (Raise e) -> is_Exception e = true) ->
  exists text,
    categories path = Return text
    /\ all_chars (fun c => printable c || (Utf8.byte c =? 10)) text = true
    /\ (path <> Missing -> all_chars printable text = true).
Proof.
  intros Hexc. destruct path as [|[f|e]].
  - eexists. split; [reflexivity|]. split; [reflexivity|]. congruence.
  - eexists. split; [reflexivity|]. split; reflexivity.
  - specialize (Hexc e eq_refl). unfold categories. rewrite Hexc.
    eexists. split; [reflexivity|].
    assert (Hprintable :
              all_chars printable
                (Json.dumps
                   (Json.Obj
                      [("error",
                        Json.Str ("Could not load categories: " ++ str e))])
                   None) = true).
    { unfold Json.dumps. cbn [Json.iterencode].
      rewrite !all_chars_app, !encode_basestring_ascii_printable.
      reflexivity. }
    split; [|intros _; exact Hprintable].
    revert Hprintable. generalize (Json.dumps
                   (Json.Obj
                      [("error",
                        Json.Str ("Could not load categories: " ++ str e))])
                   None).
    intros text. induction text as [|c text IH]; simpl; [reflexivity|].
    intros H. apply andb_true_iff in H. destruct H as [Hc Htext].
    rewrite Hc, IH by exact Htext. reflexivity.
Qed.

Lemma categories_returns_ascii_witness :
  (forall e,
      Present (Raise (OtherException
                        "[Errno 13] Permission denied: 'categories.json'"))
      = Present (Raise e) ->
      is_Exception e = true)
  /\ exists text,
      categories
        (Present (Raise (OtherException
                           "[Errno 13] Permission denied: 'categories.json'")))
      = Return text
      /\ all_chars printable text = true.
Proof.
  assert (H : forall e,
             Present (Raise (OtherException
                               "[Errno 13] Permission denied: 'categories.json'"))
             = Present (Raise e) ->
             is_Exception e = true).
  { intros e He. injection He as <-. reflexivity. }
  split; [exact H|].
  destruct (categories_returns_ascii _ H) as (text & Hret & _ & Hprintable).
  exists text. split; [exact Hret|]. apply Hprintable. discriminate.
Defined.

(** ** Error texts, and listings against summaries *)

(** X18.  The error envelopes carry the text of the exception behind a
    prefix that names the tool: for [add_expense] an operational error
    without "readonly" in its lower-cased text gives "Database operational
    error: ", any other instance of [Exception] "Unexpected error: "; the
    table is left as it was. *)
Theorem error_messages (db : database)
  (date : string) (amount : Q) (category subcategory note : string)
  (start_date end_date : string) (filter_category : option string)
  (e : exception) :
  is_Exception e = true ->
  contains "readonly" (lower (str e)) = false ->
  add_expense (Some e) db date amount category subcategory note
  = (Return
       (VDict [("status", VStr "error");
               ("message",
                VStr ((if is_OperationalError e
                       then "Database operational error: "
                       else "Unexpected error: ") ++ str e))]),
     db)
  /\ list_expenses (Some e) db start_date end_date
     = Return (VDict [("status", VStr "error");
                      ("message", VStr ("Error listing expenses: " ++ str e))])
  /\ summarize (Some e) db start_date end_date filter_category
     = Return (VDict [("status", VStr "error");
                      ("message",
                       VStr ("Error summarizing expenses: " ++ str e))]).
Proof.
  intros Hexc Hro. unfold add_expense, list_expenses, summarize, driver.
  rewrite Hexc, Hro. destruct e; try discriminate; repeat split.
Qed.

Lemma error_messages_witness :
  is_Exception (OperationalError "database is locked") = true
  /\ contains "readonly" (lower (str (OperationalError "database is locked")))
     = false
  /\ add_expense (Some (OperationalError "database is locked")) sample
                 "2024-03-01" 5 "Travel" "" ""
     = (Return
          (error_envelope "Database operational error: database is locked"),
        sample).
Proof.
  split; [reflexivity|]. split; [reflexivity|].
  exact (proj1 (error_messages sample "2024-03-01" 5 "Travel" "" ""
                  "2024-01-01" "2024-01-31" None
                  (OperationalError "database is locked") eq_refl eq_refl)).
Defined.

(** X19.  A successful [add_expense] changes a listing by the new record
    only: a record is listed afterwards exactly when it was listed before
    or is the new record with its date in the range. *)
Theorem listing_after_add (fault : option exception) (db db1 : database)
  (date : string) (amount : Q) (category subcategory note : string)
  (rid : Z) (start_date end_date : string) (out out1 : list value) :
  add_expense fault db date amount category subcategory note
  = (Return (added rid), db1) ->
  list_expenses None db start_date end_date = Return (listing out) ->
  list_expenses None db1 start_date end_date = Return (listing out1) ->
  forall r,
    In (dict_of_expense r) out1 <->
    In (dict_of_expense r) out
    \/ (r = Expense.mk rid date amount category subcategory note
        /\ ((start_date <=? date) && (date <=? end_date))%string = true).
Proof.
  intros Hadd Hout Hout1 r.
  rewrite list_expenses_returns in Hout, Hout1.
  injection Hout as <-. injection Hout1 as <-.
  apply add_expense_success in Hadd. destruct Hadd as [_ ->].
  rewrite !in_map_dict_of_expense, !in_select_range. simpl.
  rewrite in_app_iff. simpl. unfold between. split.
  - intros [[Hin|[<-|[]]] Hrange]; [left; auto|right; auto].
  - intros [[Hin Hrange]|[-> Hrange]]; auto.
Qed.

Lemma listing_after_add_witness :
  In (dict_of_expense
        (Expense.mk 6 "2024-01-09" (7 # 2) "Travel" "bus" "to work"))
     (map dict_of_expense
          [probe; Expense.mk 6 "2024-01-09" (7 # 2) "Travel" "bus" "to work";
           taxi; lunch]).
Proof.
  apply (listing_after_add None sample
           (snd (add_expense None sample "2024-01-09" (7 # 2) "Travel" "bus"
                             "to work"))
           "2024-01-09" (7 # 2) "Travel" "bus" "to work" 6
           "2024-01-01" "2024-01-31"
           (map dict_of_expense [probe; taxi; lunch])
           (map dict_of_expense
                [probe;
                 Expense.mk 6 "2024-01-09" (7 # 2) "Travel" "bus" "to work";
                 taxi; lunch])
           eq_refl eq_refl eq_refl).
  right. split; reflexivity.
Defined.

(** X20.  A summary without a category (or with the empty string) and a
    listing of the same range agree: the counts of the groups add up to the
    number of records listed. *)
Theorem summary_counts_match_listing (db : database)
  (start_date end_date : string) (category : option string)
  (gs : list Group.t) (out : list value) :
  category = None \/ category = Some "" ->
  summarize None db start_date end_date category
  = Return (VDict [("status", VStr "success");
                   ("summary", VList (map dict_of_group gs))]) ->
  list_expenses None db start_date end_date
  = Return (VDict [("status", VStr "success"); ("expenses", VList out)]) ->
  sum_counts gs = Z.of_nat (List.length out).
Proof.
  intros Hnone Hgs Hout. apply summarize_returns in Hgs.
  rewrite (summarize_rows_unfiltered db _ _ _ Hnone) in Hgs.
  rewrite list_expenses_returns in Hout. injection Hout as <-.
  rewrite Hgs, <- (sum_counts_Permutation _ _ (GroupSort.Permuted_sort _)).
  rewrite group_by_category_counts, length_map. unfold count_rows.
  f_equal. apply Permutation_length. unfold select_range, in_range.
  apply RowSort.Permuted_sort.
Qed.

Lemma summary_counts_match_listing_witness :
  sum_counts [Group.mk "Food & Dining" (85 # 2) 1; Group.mk "Travel" 30 1;
              Group.mk "test" 12 1]
  = Z.of_nat (List.length (map dict_of_expense [probe; taxi; lunch])).
Proof.
  exact (summary_counts_match_listing sample "2024-01-01" "2024-01-31" None
           [Group.mk "Food & Dining" (85 # 2) 1; Group.mk "Travel" 30 1;
            Group.mk "test" 12 1]
           (map dict_of_expense [probe; taxi; lunch])
           (or_introl eq_refl) eq_refl eq_refl).
Defined.
